(** * Weather-Forecast backend: the caching weather lookup

    A shallow embedding of

    - [src/backend/src/services/weatherService.js]
      ([getWeatherByCity], [formatWeatherData] and the module-level
      [cache]),
    - [src/backend/src/controllers/weatherController.js]
      (the request handlers [getWeatherByCity] and [getWeatherByCoords]),
    - [src/backend/src/middleware/errorHandler.js]
      ([errorHandler] and [notFound]), and
    - [src/frontend/src/App.js]
      ([formatTime], [getWeatherEmoji], [fetchWeather] and
      [handleSearch]),

    together with the properties the specification states about them.

    Conventions of the embedding.

    - A JavaScript string is a [string]; every character stands for one
      UTF-16 code unit in the range U+0000..U+00FF (the Latin-1 block), on
      which [toLowerCase] and [trim] below are the ECMAScript functions.
    - The numbers the code computes with are binary64, as the standard
      library's [SpecFloat] specifies them.  A number that the code only
      hands on is kept by its exact value, a rational ([Q]).
    - Every reading of the clock ([Date.now()], [new Date()]) is an
      explicit argument of its own, in milliseconds.
    - The service keeps one module-level cache; it is threaded through as
      an explicit state, next to the log of upstream requests. *)

From Stdlib Require Import ZArith QArith Qround String Ascii List Bool Lia.
From Stdlib Require Import DecimalString Floats.SpecFloat.
From stdpp Require Import base strings gmap.

Set Warnings "-register-all".
Local Open Scope Z_scope.

(* ===================================================================== *)
(** ** Strings of the runtime *)
(* ===================================================================== *)

Module JsString.

(** Code units that have a lower-case counterpart 32 places further:
    A..Z, and in Latin-1 U+00C0..U+00D6 and U+00D8..U+00DE. *)
Definition isUpperCase (c : ascii) : bool :=
  let n := N_of_ascii c in
  ((65 <=? n) && (n <=? 90) || (192 <=? n) && (n <=? 214)
   || (216 <=? n) && (n <=? 222))%N.

Definition toLowerCase_unit (c : ascii) : ascii :=
  if isUpperCase c then ascii_of_N (N_of_ascii c + 32) else c.

(** [String.prototype.toLowerCase]. *)
Fixpoint toLowerCase (s : string) : string :=
  match s with
  | EmptyString => EmptyString
  | String c s' => String (toLowerCase_unit c) (toLowerCase s')
  end.

(** WhiteSpace and LineTerminator code units below U+0100:
    TAB, LF, VT, FF, CR, SP and NBSP. *)
Definition isWhiteSpace (c : ascii) : bool :=
  let n := N_of_ascii c in
  ((9 <=? n) && (n <=? 13) || (n =? 32) || (n =? 160))%N.

Fixpoint trimStart (s : string) : string :=
  match s with
  | EmptyString => EmptyString
  | String c s' => if isWhiteSpace c then trimStart s' else s
  end.

Fixpoint trimEnd (s : string) : string :=
  match s with
  | EmptyString => EmptyString
  | String c s' =>
      match trimEnd s' with
      | EmptyString => if isWhiteSpace c then EmptyString
                       else String c EmptyString
      | r => String c r
      end
  end.

(** [String.prototype.trim]. *)
Definition trim (s : string) : string := trimEnd (trimStart s).

(** [String.prototype.includes]. *)
Fixpoint includes (s sub : string) : bool :=
  String.prefix sub s
  || match s with
     | EmptyString => false
     | String _ s' => includes s' sub
     end.

Definition isEmpty (s : string) : bool :=
  match s with EmptyString => true | _ => false end.

(** Two code units are the same letter when they are equal or one is
    the upper-case form of the other. *)
Definition upper_of (u l : ascii) : Prop :=
  isUpperCase u = true /\ N_of_ascii l = (N_of_ascii u + 32)%N.

Definition same_letter (c d : ascii) : Prop :=
  c = d \/ upper_of c d \/ upper_of d c.

(** Strings that differ only in letter case. *)
Inductive same_modulo_case : string -> string -> Prop :=
| smc_nil : same_modulo_case EmptyString EmptyString
| smc_cons c d s t :
    same_letter c d -> same_modulo_case s t ->
    same_modulo_case (String c s) (String d t).

(** A string made of white space only (the empty string included). *)
Fixpoint whitespace_only (s : string) : bool :=
  match s with
  | EmptyString => true
  | String c s' => isWhiteSpace c && whitespace_only s'
  end.

End JsString.

(* ===================================================================== *)
(** ** Values and plain objects *)
(* ===================================================================== *)

Module Js.

(** The values that occur in a weather object or a response body.
    [VIso t] is the string [new Date(t).toISOString()], kept symbolic.
    An object is the list of its own properties, in insertion order. *)
Inductive value : Type :=
| VUndef
| VBool (b : bool)
| VNum (q : Q)
| VNaN
| VInfinity (negative : bool)
| VStr (s : string)
| VIso (t : Z)
| VObj (props : list (string * value)).

Abbreviation obj := (list (string * value)).

(** [o.k] for an own property. *)
Fixpoint get (o : obj) (k : string) : value :=
  match o with
  | [] => VUndef
  | (k', v) :: o' => if String.eqb k' k then v else get o' k
  end.

Fixpoint has (o : obj) (k : string) : bool :=
  match o with
  | [] => false
  | (k', _) :: o' => String.eqb k' k || has o' k
  end.

(** [o.k = v]: an existing property keeps its place, a new one is
    appended. *)
Fixpoint assign (o : obj) (k : string) (v : value) : obj :=
  match o with
  | [] => [(k, v)]
  | (k', v') :: o' =>
      if String.eqb k' k then (k', v) :: o' else (k', v') :: assign o' k v
  end.

(** [{ ...o, k: v }]: a new object with the own properties of [o], then
    [k]. *)
Definition spread_with (o : obj) (k : string) (v : value) : obj :=
  assign o k v.

(** [o.a.b...] along a path of own properties. *)
Fixpoint get_path (v : value) (path : list string) : value :=
  match path with
  | [] => v
  | k :: rest =>
      match v with
      | VObj o => get_path (get o k) rest
      | _ => VUndef
      end
  end.

(** *** Numbers

    A number is a binary64: [prec] 53, [emax] 1024. *)
Abbreviation float := spec_float.

(** The number of an integer literal. *)
Definition of_Z (z : Z) : float := binary_normalize 53 1024 z 0 false.

(** The number of the decimal literal [digits]e[exponent], rounded to
    the nearest binary64, ties to even. *)
Definition decimal (negative : bool) (digits exponent : Z) : float :=
  match digits with
  | Zpos d =>
      match exponent with
      | Zneg k =>
          let '(q, e, l) :=
            SFdiv_core_binary 53 1024 (Zpos d) 0 (Z.pow_pos 10 k) 0 in
          binary_round_aux 53 1024 negative q e l
      | _ =>
          binary_round 53 1024 negative (Z.to_pos (Zpos d * 10 ^ exponent)) 0
      end
  | _ => S754_zero negative
  end.

(** The exact value of a finite number. *)
Definition to_Q (x : float) : Q :=
  match x with
  | S754_finite s m e =>
      let n := if s then Zneg m else Zpos m in
      match e with
      | Zneg k => n # (Pos.pow 2 k)
      | _ => inject_Z (n * 2 ^ e)
      end
  | _ => 0%Q
  end.

(** The value of [c] as a digit in a radix up to 16. *)
Definition digit (radix : Z) (c : ascii) : option Z :=
  let n := Z.of_N (N_of_ascii c) in
  let v := if (48 <=? n) && (n <=? 57) then n - 48
           else if (97 <=? n) && (n <=? 102) then n - 87
           else if (65 <=? n) && (n <=? 70) then n - 55
           else radix in
  if v <? radix then Some v else None.

(** The longest prefix of digits of [s]: its value on top of [value],
    how many digits it has on top of [count], and what follows it. *)
Fixpoint digits (radix : Z) (s : string) (value count : Z)
  : Z * Z * string :=
  match s with
  | EmptyString => (value, count, s)
  | String c s' =>
      match digit radix c with
      | Some v => digits radix s' (radix * value + v) (count + 1)
      | None => (value, count, s)
      end
  end.

(** ExponentPart, or nothing, up to the end of the string. *)
Definition exponent_part (s : string) : option Z :=
  match s with
  | EmptyString => Some 0
  | String c r =>
      if Ascii.eqb c "e" || Ascii.eqb c "E" then
        let '(negative, r) :=
          match r with
          | String "-" r' => (true, r')
          | String "+" r' => (false, r')
          | _ => (false, r)
          end in
        let '(v, n, rest) := digits 10 r 0 0 in
        if (0 <? n) && JsString.isEmpty rest
        then Some (if negative then - v else v)
        else None
      else None
  end.

(** StrUnsignedDecimalLiteral. *)
Definition unsigned_decimal (negative : bool) (s : string) : float :=
  if String.eqb s "Infinity" then S754_infinity negative
  else
    let '(ip, n1, r1) := digits 10 s 0 0 in
    let '(fp, n2, r2) :=
      match r1 with
      | String "." r => digits 10 r ip 0
      | _ => (ip, 0, r1)
      end in
    if 0 <? n1 + n2 then
      match exponent_part r2 with
      | Some e => decimal negative fp (e - n2)
      | None => S754_nan
      end
    else S754_nan.

(** NonDecimalIntegerLiteral, after its prefix. *)
Definition non_decimal (radix : Z) (s : string) : float :=
  let '(v, n, rest) := digits radix s 0 0 in
  if (0 <? n) && JsString.isEmpty rest then of_Z v else S754_nan.

(** [StringToNumber]. *)
Definition StringToNumber (s : string) : float :=
  match JsString.trim s with
  | EmptyString => S754_zero false
  | String "-" r => unsigned_decimal true r
  | String "+" r => unsigned_decimal false r
  | String "0" (String c r) as t =>
      if Ascii.eqb c "x" || Ascii.eqb c "X" then non_decimal 16 r
      else if Ascii.eqb c "o" || Ascii.eqb c "O" then non_decimal 8 r
      else if Ascii.eqb c "b" || Ascii.eqb c "B" then non_decimal 2 r
      else unsigned_decimal false t
  | t => unsigned_decimal false t
  end.

(** What a field holds that the code computes with: nothing
    ([undefined]), [null], a boolean, a number or a string.  An array
    or an object in such a place is outside the model. *)
Inductive operand : Type :=
| OUndefined
| ONull
| OBool (b : bool)
| ONumber (x : float)
| OString (s : string).

(** [ToNumber]. *)
Definition ToNumber (x : operand) : float :=
  match x with
  | OUndefined => S754_nan
  | ONull => S754_zero false
  | OBool b => if b then of_Z 1 else S754_zero false
  | ONumber x => x
  | OString s => StringToNumber s
  end.

(** [x - n] for an integer literal [n]. *)
Definition sub (x : operand) (n : Z) : float :=
  SFsub 53 1024 (ToNumber x) (of_Z n).

(** [x + n] for an integer literal [n]: the sum, or for a string its
    concatenation with the digits of [n]. *)
Definition add (x : operand) (n : Z) : operand :=
  match x with
  | OString s =>
      OString (String.append s (NilZero.string_of_int (Z.to_int n)))
  | _ => ONumber (SFadd 53 1024 (ToNumber x) (of_Z n))
  end.

(** The integer closest to a rational, the upper one at a tie:
    [floor (q + 1/2)]. *)
Definition round (q : Q) : Z := Qfloor (q + (1 # 2)).

(** [Math.round]; the result is an integer, which is written by its
    value (so that -0 is written 0). *)
Definition Math_round (x : float) : value :=
  match x with
  | S754_nan => VNaN
  | S754_infinity s => VInfinity s
  | _ => VNum (inject_Z (round (to_Q x)))
  end.

(** [v] is the integer nearest to [x], the upper one at a tie; a number
    that is not finite is its own nearest integer. *)
Definition nearest_integer (x : float) (v : value) : Prop :=
  match x with
  | S754_nan => v = VNaN
  | S754_infinity s => v = VInfinity s
  | _ => exists z : Z,
           v = VNum (inject_Z z)
           /\ (to_Q x - (1 # 2) < inject_Z z)%Q
           /\ (inject_Z z <= to_Q x + (1 # 2))%Q
  end.

(** [x === 1] on values. *)
Definition strict_eq_one (v : value) : bool :=
  match v with
  | VNum q => Qeq_bool q 1
  | _ => false
  end.

(** [ToBoolean]. *)
Definition truthy (v : value) : bool :=
  match v with
  | VUndef => false
  | VBool b => b
  | VNum q => negb (Qeq_bool q 0)
  | VNaN => false
  | VInfinity _ => true
  | VStr s => negb (JsString.isEmpty s)
  | VIso _ => true
  | VObj _ => true
  end.

(** [a || b] on values. *)
Definition or (a b : value) : value := if truthy a then a else b.

(** An error object: its [name], its [message], and the [response] an
    HTTP client attaches; of the latter only
    [response.data.error.message] is read, [None] when any link of that
    chain is absent. *)
Record error : Type := mkError {
  name : string;
  message : string;
  response_error_message : option string
}.

(** [new Error(msg)]. *)
Definition Error (msg : string) : error :=
  {| name := "Error"; message := msg; response_error_message := None |}.

(** The error of reading an identifier that is not in scope. *)
Definition ReferenceError (ident : string) : error :=
  {| name := "ReferenceError";
     message := String.append ident " is not defined";
     response_error_message := None |}.

(** How a call ends: with a value or with a thrown error. *)
Inductive completion (A : Type) : Type :=
| Return (a : A)
| Throw (e : error).
Arguments Return {A} a.
Arguments Throw {A} e.

(** [a || b] where [a] is an optional string: an absent or empty [a]
    is falsy. *)
Definition or_else (a : option string) (b : string) : string :=
  match a with
  | Some s => if JsString.isEmpty s then b else s
  | None => b
  end.

End Js.

(* ===================================================================== *)
(** ** The cache store *)
(* ===================================================================== *)

(** The service keeps its entries in a [NodeCache] of the node-cache
    package ([require('node-cache')], a dependency that is not part of
    the repository).  The module below follows that package's published
    behaviour (version 5, the one that knows [maxKeys]) for the options
    and methods the service uses: [stdTTL] and [maxKeys], with
    [deleteOnExpire] left at its default (on); [get], [set], [del], the
    expiry test [_check] and the periodic sweep [_checkData].  The store
    copies a value when it takes it and when it hands it out
    ([useClones]); with values that are never mutated the copies are the
    values themselves. *)
Module NodeCache.

Record options : Type := mkOptions {
  stdTTL : Z;    (* seconds; 0 means entries never expire *)
  maxKeys : Z    (* -1 means no limit *)
}.

Section Store.
Context {V : Type}.

(** A stored entry: [t] is the expiry instant in milliseconds (0 for
    none), [v] the value. *)
Record entry : Type := mkEntry { t : Z; v : V }.

(** [data] with the counters of [stats] that matter here. *)
Record cache : Type := mkCache {
  data : gmap string entry;
  hits : Z;
  misses : Z;
  keys : Z
}.

Definition empty : cache :=
  {| data := ∅; hits := 0; misses := 0; keys := 0 |}.

Definition ECACHEFULL : Js.error :=
  {| Js.name := "ECACHEFULL";
     Js.message := "Cache max keys amount exceeded";
     Js.response_error_message := None |}.

(** [_wrap(value, ttl)] with [ttl] the standard one. *)
Definition _wrap (opts : options) (now : Z) (value : V) : entry :=
  {| t := if stdTTL opts =? 0 then 0 else now + stdTTL opts * 1000;
     v := value |}.

(** [del(key)]: the number of deleted entries and the new store. *)
Definition del (key : string) (c : cache) : Z * cache :=
  match data c !! key with
  | Some _ =>
      (1, {| data := delete key (data c); hits := hits c;
             misses := misses c; keys := keys c - 1 |})
  | None => (0, c)
  end.

(** The expiry test of [_check]: [data.t !== 0 && data.t < Date.now()]. *)
Definition expired (now : Z) (e : entry) : bool :=
  negb (t e =? 0) && (t e <? now).

(** [_check(key, data)]: an expired entry is deleted and reported as
    not valid. *)
Definition _check (now : Z) (key : string) (e : entry) (c : cache)
  : bool * cache :=
  if expired now e then (false, snd (del key c)) else (true, c).

(** [get(key)]: the value of a live entry, or [None] for
    [undefined]. *)
Definition get (now : Z) (key : string) (c : cache) : option V * cache :=
  match data c !! key with
  | Some e =>
      let '(valid, c') := _check now key e c in
      if valid
      then (Some (v e),
            {| data := data c'; hits := hits c' + 1;
               misses := misses c'; keys := keys c' |})
      else (None,
            {| data := data c'; hits := hits c';
               misses := misses c' + 1; keys := keys c' |})
  | None =>
      (None,
       {| data := data c; hits := hits c;
          misses := misses c + 1; keys := keys c |})
  end.

(** [set(key, value)]: throws [ECACHEFULL] when the store is full,
    before looking at the key. *)
Definition set (opts : options) (now : Z) (key : string) (value : V)
               (c : cache) : Js.error + cache :=
  if (maxKeys opts >? -1) && (keys c >=? maxKeys opts)
  then inl ECACHEFULL
  else
    let existent := bool_decide (is_Some (data c !! key)) in
    inr {| data := <[key := _wrap opts now value]> (data c);
           hits := hits c;
           misses := misses c;
           keys := if existent then keys c else keys c + 1 |}.

(** [_checkData()]: the sweep the store runs every [checkperiod]
    seconds; it checks every entry of [data]. *)
Definition _checkData (now : Z) (c : cache) : cache :=
  foldl (fun acc ke => snd (_check now ke.1 ke.2 acc)) c
        (map_to_list (data c)).

(** What a reader finds under [key] at instant [now]. *)
Definition live (now : Z) (key : string) (c : cache) : option V :=
  match data c !! key with
  | Some e => if expired now e then None else Some (v e)
  | None => None
  end.

End Store.

Arguments entry : clear implicits.
Arguments cache : clear implicits.

End NodeCache.

(* ===================================================================== *)
(** ** services/weatherService.js *)
(* ===================================================================== *)

Module WeatherService.
Import Js.

(** The body of a provider response, as the provider's schema has it.
    A part that is absent is [None], [OUndefined] (for the two
    temperatures, which are computed with) or [VUndef] (for what is
    only passed on). *)
Record Condition : Type := mkCondition {
  text : value;
  icon : value
}.

Record Location : Type := mkLocation {
  loc_name : value;
  country : value;
  lat : value;
  lon : value;
  localtime : value
}.

Record Current : Type := mkCurrent {
  temp_c : operand;
  feelslike_c : operand;
  condition : option Condition;
  pressure_mb : value;
  humidity : value;
  wind_kph : value;
  wind_degree : value;
  wind_dir : value;
  vis_km : value;
  air_quality : value;
  is_day : value
}.

Record RawWeather : Type := mkRawWeather {
  location : option Location;
  current : option Current
}.

(** [x?.f] where [f] reads a value. *)
Definition opt {A : Type} (x : option A) (f : A -> value) : value :=
  match x with
  | Some a => f a
  | None => VUndef
  end.

(** [current?.temp_c] and the like, where [f] reads an operand. *)
Definition opt_operand (x : option Current) (f : Current -> operand)
  : operand :=
  match x with
  | Some a => f a
  | None => OUndefined
  end.

(** [formatWeatherData(data)]; [now] is the clock read by [new Date()]. *)
Definition formatWeatherData (now : Z) (data : RawWeather) : obj :=
  let current := current data in
  let location := location data in
  let condition := match current with
                   | Some c => condition c
                   | None => None
                   end in
  [ ("city", opt location loc_name);
    ("country", opt location country);
    ("coordinates", VObj [ ("lat", opt location lat);
                           ("lon", opt location lon) ]);
    ("weather", VObj [ ("main", opt condition text);
                       ("description", opt condition text);
                       ("icon", opt condition icon) ]);
    ("main", VObj [ ("temp",
                     Math_round (ToNumber (opt_operand current temp_c)));
                    ("feels_like",
                     Math_round (ToNumber (opt_operand current feelslike_c)));
                    ("temp_min",
                     Math_round (sub (opt_operand current temp_c) 2));
                    ("temp_max",
                     Math_round
                       (ToNumber (add (opt_operand current temp_c) 2)));
                    ("pressure", opt current pressure_mb);
                    ("humidity", opt current humidity) ]);
    ("wind", VObj [ ("speed", opt current wind_kph);
                    ("deg", opt current wind_degree);
                    ("dir", opt current wind_dir) ]);
    ("visibility", opt current vis_km);
    ("last_updated", opt location localtime);
    ("aqi", opt current air_quality);
    ("is_day", if strict_eq_one (opt current is_day)
               then VStr "day" else VStr "night");
    ("timestamp", VIso now) ].

(** How [axios.get] settles: fulfilled with a response (its status and
    its parsed body, [None] for an empty one), or rejected with an
    error (a status outside 2xx, or no response at all). *)
Inductive AxiosResult : Type :=
| Fulfilled (status : Z) (data : option RawWeather)
| Rejected (e : error).

(** The provider: what a request for [q] settles to. *)
Definition Upstream : Type := string -> AxiosResult.

(** The module state: the cache and, for the proofs, the [q] of every
    request sent upstream so far. *)
Record State : Type := mkState {
  cache : NodeCache.cache obj;
  requests : list string
}.

Definition initial : State :=
  {| cache := NodeCache.empty; requests := [] |}.

(** The key of line 17. *)
Definition cacheKey (city : string) : string :=
  String.append "weather_" (JsString.toLowerCase city).

(** The message of line 48. *)
Definition failure_message (e : error) : string :=
  String.append "Failed to fetch weather data: "
                (or_else (response_error_message e) (message e)).

(** [getWeatherByCity(city)].  The clock is read three times: by
    [cache.get] at line 20 ([now]), by the [new Date()] of line 90 once
    the provider has answered ([date]), and by [cache.set] at line 41
    ([now']).  The test [if (cachedData)] of line 21 is the match on
    [Some]: what the cache holds are objects, and an object is truthy. *)
Definition getWeatherByCity (opts : NodeCache.options) (up : Upstream)
                            (now date now' : Z) (city : string) (st : State)
  : completion obj * State :=
  let cacheKey := cacheKey city in
  let '(cachedData, c1) := NodeCache.get now cacheKey (cache st) in
  match cachedData with
  | Some cachedData =>
      (Return (spread_with cachedData "fromCache" (VBool true)),
       {| cache := c1; requests := requests st |})
  | None =>
      let requests' := requests st ++ [city] in
      (* the try block *)
      let attempt : error + (obj * NodeCache.cache obj) :=
        match up city with
        | Rejected e => inl e
        | Fulfilled status (Some data) =>
            if status =? 200 then
              let weatherData := formatWeatherData date data in
              match NodeCache.set opts now' cacheKey weatherData c1 with
              | inl e => inl e
              | inr c2 =>
                  inr (spread_with weatherData "fromCache" (VBool false), c2)
              end
            else inl (Error "Invalid response from weather API")
        | Fulfilled _ None =>
            inl (Error "Invalid response from weather API")
        end in
      match attempt with
      | inr (result, c2) =>
          (Return result, {| cache := c2; requests := requests' |})
      | inl e =>
          (* the catch block *)
          (Throw (Error (failure_message e)),
           {| cache := c1; requests := requests' |})
      end
  end.

End WeatherService.

(* ===================================================================== *)
(** ** controllers/weatherController.js *)
(* ===================================================================== *)

Module WeatherController.
Import Js.

(** [req.query.city]: absent, a string, or something else (an array or
    an object of the query-string parser). *)
Inductive QueryValue : Type :=
| QAbsent
| QString (s : string)
| QOther.

(** What [res.status(..).json(..)] sends. *)
Record Response : Type := mkResponse {
  status : Z;
  body : obj
}.

(** How the handler ends: a response was sent, or its promise was
    rejected. *)
Inductive Outcome : Type :=
| Responded (r : Response)
| Unhandled (e : error).

(** The test of line 32,
    [!city || typeof city !== 'string' || city.trim() === ''],
    read from the other side: the string the request goes on with, or
    [None] when the test rejects it. *)
Definition accepted (city : QueryValue) : option string :=
  match city with
  | QAbsent => None
  | QOther => None
  | QString s =>
      if JsString.isEmpty s || JsString.isEmpty (JsString.trim s)
      then None else Some s
  end.

(** The response of lines 34 to 38. *)
Definition bad_request : Response :=
  {| status := 400;
     body := [ ("status", VStr "error");
               ("message", VStr "Please provide a valid city name");
               ("example", VStr "/api/weather?city=London") ] |}.

(** Lines 66 to 79: the response chosen for an error. *)
Definition error_response (development : bool) (e : error) : Response :=
  if JsString.includes (message e) "not found"
  then {| status := 404;
          body := [ ("status", VStr "error");
                    ("message", VStr "City not found. Please check the city name and try again.") ] |}
  else {| status := 500;
          body := [ ("status", VStr "error");
                    ("message", VStr "An error occurred while fetching weather data");
                    ("details", if development then VStr (message e)
                                else VUndef) ] |}.

(** The catch block, lines 59 to 80.  Its first statement builds a log
    line from [city]; that name is declared by the [const] of line 29,
    inside the try block, so it is not in scope here and reading it
    throws.  The statements after it, [error_response], are not
    reached. *)
Definition catch_block (development : bool) (e : error) : Outcome :=
  Unhandled (ReferenceError "city").

(** [getWeatherByCity(req, res, next)].  [sent] is the clock at the
    [new Date()] of line 55. *)
Definition getWeatherByCity (opts : NodeCache.options)
                            (up : WeatherService.Upstream)
                            (development : bool) (now date now' sent : Z)
                            (city : QueryValue) (st : WeatherService.State)
  : Outcome * WeatherService.State :=
  match accepted city with
  | None => (Responded bad_request, st)
  | Some city =>
      match WeatherService.getWeatherByCity opts up now date now' city st with
      | (Return weatherData, st') =>
          (Responded
             {| status := 200;
                body := [ ("status", VStr "success");
                          ("data", VObj weatherData);
                          ("meta",
                           VObj [ ("cached",
                                   or (get weatherData "fromCache")
                                      (VBool false));
                                  ("timestamp", VIso sent) ]) ] |},
           st')
      | (Throw e, st') => (catch_block development e, st')
      end
  end.

End WeatherController.

(* ===================================================================== *)
(** ** Reachable stores *)
(* ===================================================================== *)

(** The service touches its cache in two places only: the [cache.get] of
    line 20 and the [cache.set] of line 41, whose value is always a
    [formatWeatherData] result; the store sweeps itself in between.
    Requests that overlap at the [await] interleave these steps, so the
    stores that can arise are those reached from the empty one by any
    sequence of them. *)
Module Reach.
Import WeatherService.

Inductive op : Type :=
| OpGet (now : Z) (key : string)
| OpSet (date now : Z) (key : string) (data : RawWeather)
| OpSweep (now : Z).

Definition apply (opts : NodeCache.options) (o : op)
                 (c : NodeCache.cache Js.obj) : NodeCache.cache Js.obj :=
  match o with
  | OpGet now key => snd (NodeCache.get now key c)
  | OpSet date now key data =>
      match NodeCache.set opts now key (formatWeatherData date data) c with
      | inr c' => c'
      | inl _ => c
      end
  | OpSweep now => NodeCache._checkData now c
  end.

Inductive reachable (opts : NodeCache.options)
  : NodeCache.cache Js.obj -> Prop :=
| reach_empty : reachable opts NodeCache.empty
| reach_step o c : reachable opts c -> reachable opts (apply opts o c).

(** The number of entries in the store. *)
Definition entries (c : NodeCache.cache Js.obj) : Z :=
  Z.of_nat (size (NodeCache.data c)).

(** What holds of every reachable store: the counter agrees with the
    data, a non-negative limit bounds it, and no stored object has a
    [fromCache] property. *)
Record invariant (opts : NodeCache.options) (c : NodeCache.cache Js.obj)
  : Prop := mkInvariant {
  inv_keys : NodeCache.keys c = entries c;
  inv_bound : 0 <= NodeCache.maxKeys opts ->
              entries c <= NodeCache.maxKeys opts;
  inv_plain : forall k e, NodeCache.data c !! k = Some e ->
                          Js.has (NodeCache.v e) "fromCache" = false
}.

End Reach.

(* ===================================================================== *)
(** ** The key as the specification words it *)
(* ===================================================================== *)

Module Spec.

(** "Normalizes key by lower-casing the trimmed city name." *)
Definition key (city : string) : string :=
  JsString.toLowerCase (JsString.trim city).

End Spec.

(* ===================================================================== *)
(** ** Sample configurations, payloads and providers *)
(* ===================================================================== *)

Module Sample.
Import Js WeatherService.

(** Lines 6 to 9 with no environment variable set. *)
Definition default_options : NodeCache.options :=
  {| NodeCache.stdTTL := 600; NodeCache.maxKeys := 100 |}.

(** A store with room for one entry. *)
Definition one_slot : NodeCache.options :=
  {| NodeCache.stdTTL := 600; NodeCache.maxKeys := 1 |}.

(** A store whose entries never expire. *)
Definition no_expiry : NodeCache.options :=
  {| NodeCache.stdTTL := 0; NodeCache.maxKeys := 100 |}.

(** The provider's answer for London used in the specification, with
    the given [temp_c]. *)
Definition london_current (temp : operand) : Current :=
  {| temp_c := temp;
     feelslike_c := ONumber (of_Z 14);
     condition := Some {| text := VStr "Cloudy";
                          icon := VStr "//x/03d.png" |};
     pressure_mb := VNum 1012;
     humidity := VNum 81;
     wind_kph := VNum 10;
     wind_degree := VNum 200;
     wind_dir := VStr "SW";
     vis_km := VNum 10;
     air_quality := VObj [];
     is_day := VNum 1 |}.

Definition london_at (temp : operand) : RawWeather :=
  {| location :=
       Some {| loc_name := VStr "London";
               country := VStr "GB";
               lat := VNum (515 # 10);
               lon := VNum (-13 # 100);
               localtime := VStr "2024-01-01 12:00" |};
     current := Some (london_current temp) |}.

(** The answer of the specification: [temp_c] is 15.4. *)
Definition london : RawWeather := london_at (ONumber (decimal false 154 (-1))).

(** The largest number below one half: 0.49999999999999994. *)
Definition below_half : float := decimal false 49999999999999994 (-17).


(** A provider that answers every request with the given body. *)
Definition always (d : RawWeather) : Upstream :=
  fun _ => Fulfilled 200 (Some d).

(** A provider that answers every request with [london]. *)
Definition always_london : Upstream :=
  fun _ => Fulfilled 200 (Some london).

(** The rejection for HTTP 400 with body
    [{error: {message: "No matching location found."}}]. *)
Definition no_matching_location : error :=
  {| name := "AxiosError";
     message := "Request failed with status code 400";
     response_error_message := Some "No matching location found." |}.

Definition unknown_city : Upstream :=
  fun _ => Rejected no_matching_location.

(** A request that never got an answer. *)
Definition network_error : error :=
  {| name := "AxiosError";
     message := "Network Error";
     response_error_message := None |}.

Definition unreachable_provider : Upstream :=
  fun _ => Rejected network_error.

(** The state after one lookup of "paris" at instant 1000 in a store
    with one slot. *)
Definition after_paris : State :=
  snd (getWeatherByCity one_slot always_london 1000 1000 1000 "paris" initial).

(** The state after one lookup of "london" at instant 1000, with the
    options of the source and with entries that never expire. *)
Definition after_london : State :=
  snd (getWeatherByCity default_options always_london 1000 1000 1000
                        "london" initial).

Definition after_london_no_expiry : State :=
  snd (getWeatherByCity no_expiry always_london 1000 1000 1000
                        "london" initial).

End Sample.

(* ===================================================================== *)
(** ** controllers/weatherController.js: the coordinates handler *)
(* ===================================================================== *)

Module WeatherControllerCoords.
Import Js WeatherController.

(** [new TypeError(msg)]. *)
Definition TypeError (msg : string) : error :=
  {| name := "TypeError"; message := msg; response_error_message := None |}.

(** [!x] for a query value: absent and the empty string are falsy, any
    other string, array or object is truthy. *)
Definition falsy (x : QueryValue) : bool :=
  match x with
  | QAbsent => true
  | QString s => JsString.isEmpty s
  | QOther => false
  end.

(** The response of lines 108 to 112. *)
Definition bad_request : Response :=
  {| status := 400;
     body := [ ("status", VStr "error");
               ("message", VStr "Please provide valid latitude and longitude");
               ("example", VStr "/api/weather?lat=37.7749&lon=-122.4194") ] |}.

(** The call of line 119.  The service module exports
    [getWeatherByCity] and nothing else (its lines 94 to 96), so
    [weatherService.getWeatherByCoords] is [undefined] and calling it
    throws. *)
Definition call_service : completion obj :=
  Throw (TypeError "weatherService.getWeatherByCoords is not a function").

(** The catch block, lines 132 to 153.  Like the one of the city
    handler it starts by reading a name, here [lat], that the [const]
    of line 103 declares inside the try block; the read throws. *)
Definition catch_block (development : bool) (e : error) : Outcome :=
  Unhandled (ReferenceError "lat").

(** [getWeatherByCoords(req, res, next)]. *)
Definition getWeatherByCoords (development : bool) (now : Z)
                              (lat lon : QueryValue) : Outcome :=
  if falsy lat || falsy lon then Responded bad_request
  else
    match call_service with
    | Return weatherData =>
        Responded
          {| status := 200;
             body := [ ("status", VStr "success");
                       ("message", VStr "Weather data retrieved successfully");
                       ("data", VObj weatherData);
                       ("timestamp", VIso now) ] |}
    | Throw e => catch_block development e
    end.

End WeatherControllerCoords.

(* ===================================================================== *)
(** ** middleware/errorHandler.js *)
(* ===================================================================== *)

Module ErrorHandler.
Import Js WeatherController.

(** An error as the middleware reads it: [statusCode] is [None] when
    the error has none, [stack] is the trace the runtime recorded,
    [errors] is [VUndef] when the error has none. *)
Record Err : Type := mkErr {
  err_name : string;
  err_message : string;
  err_statusCode : option Z;
  err_stack : value;
  err_errors : value
}.

(** [err.statusCode || 500]. *)
Definition statusCode_or_500 (c : option Z) : Z :=
  match c with
  | Some n => if n =? 0 then 500 else n
  | None => 500
  end.

(** [errorHandler(err, req, res, next)]; [development] is
    [process.env.NODE_ENV === 'development']. *)
Definition errorHandler (development : bool) (err : Err) : Response :=
  let statusCode := statusCode_or_500 (err_statusCode err) in
  let errorResponse : obj :=
    [ ("status", VStr "error");
      ("message", VStr (if JsString.isEmpty (err_message err)
                        then "An unexpected error occurred"
                        else err_message err)) ]
    ++ (if development then [ ("stack", err_stack err) ] else []) in
  let errorResponse :=
    if String.eqb (err_name err) "ValidationError"
    then assign (assign errorResponse "message" (VStr "Validation Error"))
                "errors" (err_errors err)
    else errorResponse in
  {| status := statusCode; body := errorResponse |}.

(** [notFound(req, res, next)]: the error it hands to [next].
    [originalUrl] is [req.originalUrl], [stack] the trace of the new
    error. *)
Definition notFound (originalUrl : string) (stack : value) : Err :=
  {| err_name := "Error";
     err_message := String.append "Not Found - " originalUrl;
     err_statusCode := Some 404;
     err_stack := stack;
     err_errors := VUndef |}.

End ErrorHandler.

(* ===================================================================== *)
(** ** frontend/src/App.js *)
(* ===================================================================== *)

(** The helpers [formatTime] and [getWeatherEmoji] and the state changes
    of [fetchWeather] and [handleSearch].  The emoji of the source are
    written as the source file has them and are only handed on. *)
Module App.
Import Js.

Definition TypeError (msg : string) : error :=
  {| name := "TypeError"; message := msg; response_error_message := None |}.

(** [s.split(sep)] for a separator of one character: never empty. *)
Fixpoint split (sep : ascii) (s : string) : list string :=
  match s with
  | EmptyString => [EmptyString]
  | String c s' =>
      if Ascii.eqb c sep then EmptyString :: split sep s'
      else match split sep s' with
           | h :: t => String c h :: t
           | [] => [String c EmptyString]
           end
  end.

(** Whether [c] occurs in [s]. *)
Fixpoint occurs (c : ascii) (s : string) : bool :=
  match s with
  | EmptyString => false
  | String c' s' => Ascii.eqb c' c || occurs c s'
  end.

Definition isDigit (c : ascii) : bool :=
  let n := N_of_ascii c in ((48 <=? n) && (n <=? 57))%N.

Fixpoint all_digits (s : string) : bool :=
  match s with
  | EmptyString => true
  | String c s' => isDigit c && all_digits s'
  end.

(** The value of the longest prefix of decimal digits; [acc] is the
    value read so far, [None] as long as no digit was read. *)
Fixpoint parse_digits (s : string) (acc : option Z) : option Z :=
  match s with
  | EmptyString => acc
  | String c s' =>
      if isDigit c
      then parse_digits s'
             (Some (10 * default 0 acc + Z.of_N (N_of_ascii c - 48)))
      else acc
  end.

(** [parseInt(s, 10)]: the digits read, rounded to a binary64 number
    and negated after a minus sign; [NaN] when there is no digit. *)
Definition parseInt (s : string) : float :=
  let number (r : string) : float :=
    match parse_digits r None with
    | Some n => of_Z n
    | None => S754_nan
    end in
  match JsString.trimStart s with
  | String "-" r => SFopp (number r)
  | String "+" r => number r
  | r => number r
  end.

(** The integer that a number is, for a number that is one: what
    [parseInt] returns is [NaN] or an integer. *)
Definition integer (x : float) : option Z :=
  match x with
  | S754_zero _ => Some 0
  | S754_finite s m e =>
      let n := if 0 <=? e then Z.shiftl (Zpos m) e
               else Z.shiftr (Zpos m) (- e) in
      Some (if s then - n else n)
  | _ => None
  end.

(** [hour >= 12]: false for [NaN]. *)
Definition ge_12 (hour : float) : bool := SFleb (of_Z 12) hour.

(** [hour % 12 || 12] for an [hour] that [parseInt] returned: the
    remainder has the sign of [hour]; a remainder of zero and the [NaN]
    that [NaN] and the infinities give are falsy. *)
Definition rem_12_or_12 (hour : float) : Z :=
  match integer hour with
  | Some h => if Z.rem h 12 =? 0 then 12 else Z.rem h 12
  | None => 12
  end.

(** An integer in a template literal. *)
Definition show (z : Z) : string := NilZero.string_of_int (Z.to_int z).

(** [formatTime(timeString)], lines 18 to 26; [None] is a time string
    that is [undefined] or [null].  The error message is the one of
    V8. *)
Definition formatTime (timeString : option string) : completion string :=
  match timeString with
  | None => Return EmptyString
  | Some timeString =>
      if JsString.isEmpty timeString then Return EmptyString
      else
        match split " " timeString !! 1%nat with
        | None =>
            Throw (TypeError "Cannot read properties of undefined (reading 'split')")
        | Some time =>
            let parts := split ":" time in
            let hourStr := hd EmptyString parts in
            let minutes := parts !! 1%nat in
            let hour := parseInt hourStr in
            let ampm := if ge_12 hour then "PM" else "AM" in
            let hour12 := rem_12_or_12 hour in
            Return (String.append (show hour12)
                     (String.append ":"
                        (String.append (default "undefined" minutes)
                           (String.append " " ampm))))
        end
  end.

(** Lines 5 to 15. *)
Definition weatherIcons : list (string * string) :=
  [ ("01d", "☀️"); ("01n", "🌙");
    ("02d", "⛅"); ("02n", "☁️");
    ("03d", "☁️"); ("03n", "☁️");
    ("04d", "☁️"); ("04n", "☁️");
    ("09d", "🌧️"); ("09n", "🌧️");
    ("10d", "🌦️"); ("10n", "🌧️");
    ("11d", "⛈️"); ("11n", "⛈️");
    ("13d", "❄️"); ("13n", "❄️");
    ("50d", "🌫️"); ("50n", "🌫️") ].

(** The properties every object inherits from [Object.prototype]. *)
Definition inherited : list string :=
  [ "constructor"; "__defineGetter__"; "__defineSetter__";
    "hasOwnProperty"; "__lookupGetter__"; "__lookupSetter__";
    "isPrototypeOf"; "propertyIsEnumerable"; "toString"; "valueOf";
    "__proto__"; "toLocaleString" ].

Fixpoint own (table : list (string * string)) (k : string) : option string :=
  match table with
  | [] => None
  | (k', v) :: rest => if String.eqb k' k then Some v else own rest k
  end.

(** What [getWeatherEmoji] hands back: a string, or for a name found on
    the prototype the member of that name, which is not a string. *)
Inductive Shown : Type :=
| Text (s : string)
| Member (name : string).

(** [getWeatherEmoji(iconUrl)], lines 151 to 155; [None] is an icon
    that is [undefined] or [null]. *)
Definition getWeatherEmoji (iconUrl : option string) : Shown :=
  match iconUrl with
  | None => Text "🌡️"
  | Some iconUrl =>
      if JsString.isEmpty iconUrl then Text "🌡️"
      else
        let iconCode :=
          hd EmptyString
             (split "." (List.last (split "/" iconUrl) EmptyString)) in
        match own weatherIcons iconCode with
        | Some emoji =>
            if JsString.isEmpty emoji then Text "🌡️" else Text emoji
        | None =>
            if existsb (String.eqb iconCode) inherited
            then Member iconCode
            else Text "🌡️"
        end
  end.

(** The body of [current.json] as [fetchWeather] reads it.  [error] is
    [None] when the body has no [error], and otherwise holds its
    [message], if it has one. *)
Record Condition : Type := mkCondition {
  text : value;
  icon : option string
}.

Record Location : Type := mkLocation {
  loc_name : value;
  country : value
}.

Record Current : Type := mkCurrent {
  temp_c : operand;
  feelslike_c : operand;
  condition : option Condition;
  humidity : value;
  wind_kph : value;
  wind_dir : value;
  pressure_mb : value;
  vis_km : value;
  last_updated : value
}.

Record CurrentData : Type := mkCurrentData {
  error : option (option string);
  location : option Location;
  current : option Current
}.

(** How the two awaits of lines 59 to 62 end: with the parsed body, or
    with a throw (the request failed or the body is not JSON). *)
Inductive Fetched : Type :=
| Json (currentData : CurrentData)
| Failed.

(** The object of lines 65 to 78; [None] when building it throws
    because [location], [current] or [condition] is missing. *)
Definition weatherData (currentData : CurrentData) : option obj :=
  match location currentData, current currentData with
  | Some location, Some current =>
      match condition current with
      | Some condition =>
          Some [ ("city", loc_name location);
                 ("country", country location);
                 ("temp", Math_round (ToNumber (temp_c current)));
                 ("description", text condition);
                 ("icon", VStr (String.append "https:"
                                  (default "undefined" (icon condition))));
                 ("humidity", humidity current);
                 ("wind", wind_kph current);
                 ("wind_dir", wind_dir current);
                 ("pressure", pressure_mb current);
                 ("visibility", vis_km current);
                 ("feels_like", Math_round (ToNumber (feelslike_c current)));
                 ("last_updated", last_updated current) ]
      | None => None
      end
  | _, _ => None
  end.

(** The component's state, lines 29 to 35. *)
Record State : Type := mkState {
  weather : option obj;
  city : string;
  suggestions : list obj;
  showSuggestions : bool;
  loading : bool;
  error_text : string
}.

Definition setWeather (w : obj) (s : State) : State :=
  {| weather := Some w; city := city s; suggestions := suggestions s;
     showSuggestions := showSuggestions s; loading := loading s;
     error_text := error_text s |}.

Definition setCity (c : string) (s : State) : State :=
  {| weather := weather s; city := c; suggestions := suggestions s;
     showSuggestions := showSuggestions s; loading := loading s;
     error_text := error_text s |}.

Definition setShowSuggestions (b : bool) (s : State) : State :=
  {| weather := weather s; city := city s; suggestions := suggestions s;
     showSuggestions := b; loading := loading s;
     error_text := error_text s |}.

Definition setLoading (b : bool) (s : State) : State :=
  {| weather := weather s; city := city s; suggestions := suggestions s;
     showSuggestions := showSuggestions s; loading := b;
     error_text := error_text s |}.

Definition setError (e : string) (s : State) : State :=
  {| weather := weather s; city := city s; suggestions := suggestions s;
     showSuggestions := showSuggestions s; loading := loading s;
     error_text := e |}.

(** [fetchWeather(cityName)], lines 51 to 91, from the call to the end
    of its [finally]; [fetched] is how its request ends. *)
Definition fetchWeather (cityName : string) (fetched : Fetched) (s : State)
  : State :=
  if JsString.isEmpty cityName then s
  else
    let s := setError EmptyString (setLoading true s) in
    let s :=
      match fetched with
      | Json currentData =>
          match error currentData with
          | None =>
              match weatherData currentData with
              | Some weatherData => setCity EmptyString (setWeather weatherData s)
              | None => setError "Failed to fetch weather data" s
              end
          | Some message => setError (or_else message "City not found.") s
          end
      | Failed => setError "Failed to fetch weather data" s
      end in
    setLoading false s.

(** [handleSearch(e)], lines 123 to 129. *)
Definition handleSearch (fetched : Fetched) (s : State) : State :=
  if JsString.isEmpty (JsString.trim (city s)) then s
  else setShowSuggestions false (fetchWeather (city s) fetched s).

End App.

(* ===================================================================== *)
(** ** What every stored entry looks like *)
(* ===================================================================== *)

Module Stored.
Import WeatherService.

(** An entry as line 41 stores it: a payload that [formatWeatherData]
    built at an instant [date], wrapped by [cache.set] at an instant
    [now]. *)
Definition stamped (opts : NodeCache.options)
                   (e : NodeCache.entry Js.obj) : Prop :=
  exists (date now : Z) (d : RawWeather),
    e = NodeCache._wrap opts now (formatWeatherData date d).

Definition all_stamped (opts : NodeCache.options)
                       (c : NodeCache.cache Js.obj) : Prop :=
  forall k e, NodeCache.data c !! k = Some e -> stamped opts e.

End Stored.

(* ===================================================================== *)
(** ** Facts about strings *)
(* ===================================================================== *)

Section StringFacts.
Import JsString.

Lemma toLowerCase_unit_upper_of (u l : ascii) :
  upper_of u l -> toLowerCase_unit u = l /\ toLowerCase_unit l = l.
Proof.
  intros [Hu Hl].
  assert (El : l = ascii_of_N (N_of_ascii u + 32)).
  { rewrite <- Hl. symmetry. apply ascii_N_embedding. }
  subst l. clear Hl.
  destruct u as [[] [] [] [] [] [] [] []];
    first [ discriminate Hu | split; reflexivity ].
Qed.

Lemma toLowerCase_unit_same_letter (c d : ascii) :
  same_letter c d -> toLowerCase_unit c = toLowerCase_unit d.
Proof.
  intros [-> | [H | H]]; [reflexivity | |];
    apply toLowerCase_unit_upper_of in H as [H1 H2]; congruence.
Qed.

Lemma toLowerCase_same_modulo_case (s t : string) :
  same_modulo_case s t -> toLowerCase s = toLowerCase t.
Proof.
  induction 1 as [| c d s t Hcd _ IH]; simpl; [reflexivity |].
  rewrite (toLowerCase_unit_same_letter c d Hcd), IH. reflexivity.
Qed.

Lemma same_modulo_case_refl (s : string) : same_modulo_case s s.
Proof.
  induction s; constructor; [left; reflexivity | assumption].
Qed.

Lemma trimStart_whitespace_only (s : string) :
  whitespace_only s = true -> trimStart s = EmptyString.
Proof.
  induction s as [| c s IH]; simpl; [reflexivity |].
  intros H. apply andb_prop in H as [Hc Hs]. rewrite Hc. auto.
Qed.

Lemma trim_whitespace_only (s : string) :
  whitespace_only s = true -> trim s = EmptyString.
Proof.
  intros H. unfold trim. rewrite trimStart_whitespace_only by assumption.
  reflexivity.
Qed.

(** What [trimStart] leaves is empty or starts with a character that is
    not white space. *)
Lemma trimStart_head (s : string) :
  match trimStart s with
  | EmptyString => whitespace_only s = true
  | String c _ => isWhiteSpace c = false
  end.
Proof.
  induction s as [| c s IH]; simpl; [reflexivity |].
  destruct (isWhiteSpace c) eqn:Hc; simpl.
  - destruct (trimStart s); assumption.
  - assumption.
Qed.

Lemma trimEnd_empty_head (c : ascii) (s : string) :
  trimEnd (String c s) = EmptyString -> isWhiteSpace c = true.
Proof.
  simpl. destruct (trimEnd s); [| discriminate].
  destruct (isWhiteSpace c); [reflexivity | discriminate].
Qed.

Lemma trim_empty_whitespace_only (s : string) :
  trim s = EmptyString -> whitespace_only s = true.
Proof.
  unfold trim. intros H. pose proof (trimStart_head s) as Hh.
  destruct (trimStart s) as [| c r]; [assumption |].
  apply trimEnd_empty_head in H. congruence.
Qed.

Lemma isEmpty_true (s : string) : isEmpty s = true <-> s = EmptyString.
Proof. destruct s; simpl; split; congruence. Qed.

End StringFacts.

(* ===================================================================== *)
(** ** Facts about objects and numbers *)
(* ===================================================================== *)

Section ObjectFacts.
Import Js.

Lemma get_assign_eq (o : obj) (k : string) (x : value) :
  get (assign o k x) k = x.
Proof.
  induction o as [| [k' v'] o IH]; simpl.
  - rewrite String.eqb_refl. reflexivity.
  - destruct (String.eqb k' k) eqn:E; simpl; rewrite E; auto.
Qed.

Lemma get_assign_ne (o : obj) (k k' : string) (x : value) :
  k <> k' -> get (assign o k x) k' = get o k'.
Proof.
  intros Hne. induction o as [| [k0 v0] o IH]; simpl.
  - destruct (String.eqb k k') eqn:E; [| reflexivity].
    apply String.eqb_eq in E. contradiction.
  - destruct (String.eqb k0 k) eqn:E; simpl.
    + apply String.eqb_eq in E. subst k0.
      destruct (String.eqb k k') eqn:E'; [| reflexivity].
      apply String.eqb_eq in E'. contradiction.
    + destruct (String.eqb k0 k'); auto.
Qed.

Lemma has_assign (o : obj) (k : string) (x : value) :
  has (assign o k x) k = true.
Proof.
  induction o as [| [k' v'] o IH]; simpl.
  - rewrite String.eqb_refl. reflexivity.
  - destruct (String.eqb k' k) eqn:E; simpl; rewrite E; auto.
Qed.

(** Adding a property the object does not have appends it. *)
Lemma assign_fresh (o : obj) (k : string) (x : value) :
  has o k = false -> assign o k x = o ++ [(k, x)].
Proof.
  induction o as [| [k' v'] o IH]; simpl; [reflexivity |].
  intros H. apply orb_false_elim in H as [E Ho].
  rewrite E, IH by assumption. reflexivity.
Qed.

Lemma round_shift (q : Q) (n : Z) :
  round (q + inject_Z n) = (round q + n)%Z.
Proof.
  unfold round.
  assert (E : (q + inject_Z n + (1 # 2) == q + (1 # 2) + inject_Z n)%Q)
    by ring.
  rewrite E. clear E.
  destruct (q + (1 # 2))%Q as [a b]. unfold Qfloor, Qplus, inject_Z. simpl.
  rewrite Z.mul_1_r, Pos.mul_1_r. apply Z.div_add. lia.
Qed.

(** [round q] is the integer nearest to [q], the upper one at a tie. *)
Lemma round_nearest (q : Q) :
  (q - (1 # 2) < inject_Z (round q) /\ inject_Z (round q) <= q + (1 # 2))%Q.
Proof.
  unfold round. split.
  - pose proof (Qlt_floor (q + (1 # 2))) as H.
    rewrite inject_Z_plus in H. simpl in H.
    apply Qplus_lt_l with (z := 1%Q).
    eapply Qle_lt_trans; [| exact H].
    ring_simplify. apply Qle_refl.
  - apply Qfloor_le.
Qed.

(** [Math.round] gives the nearest integer. *)
Lemma Math_round_nearest (x : float) : nearest_integer x (Math_round x).
Proof.
  destruct x as [s | s | | s m e]; simpl; try reflexivity;
    (eexists; split; [reflexivity | apply round_nearest]).
Qed.

Lemma has_assign_ne (o : obj) (k k' : string) (x : value) :
  k <> k' -> has (assign o k x) k' = has o k'.
Proof.
  intros Hne. induction o as [| [k0 v0] o IH]; simpl.
  - destruct (String.eqb k k') eqn:E; [| reflexivity].
    apply String.eqb_eq in E. contradiction.
  - destruct (String.eqb k0 k) eqn:E; simpl; [reflexivity |].
    rewrite IH. reflexivity.
Qed.

End ObjectFacts.

(* ===================================================================== *)
(** ** The store keeps its invariant *)
(* ===================================================================== *)

Section StoreFacts.
Import Reach.
Variable opts : NodeCache.options.

Lemma invariant_empty : invariant opts NodeCache.empty.
Proof.
  split.
  - reflexivity.
  - unfold entries. simpl. rewrite map_size_empty. lia.
  - intros k e H. simpl in H. rewrite lookup_empty in H. discriminate.
Qed.

Lemma invariant_del (key : string) (c : NodeCache.cache Js.obj) :
  invariant opts c -> invariant opts (snd (NodeCache.del key c)).
Proof.
  intros [Hk Hb Hp]. unfold NodeCache.del.
  destruct (NodeCache.data c !! key) as [e |] eqn:E; simpl;
    [| split; assumption].
  assert (Hs : entries {| NodeCache.data := delete key (NodeCache.data c);
                          NodeCache.hits := NodeCache.hits c;
                          NodeCache.misses := NodeCache.misses c;
                          NodeCache.keys := NodeCache.keys c - 1 |}
               = entries c - 1).
  { unfold entries. simpl.
    rewrite map_size_delete_Some by (rewrite E; eauto).
    assert (size (NodeCache.data c) ≠ 0%nat)
      by (apply map_size_ne_0_lookup; eauto).
    lia. }
  split.
  - rewrite Hs. simpl. lia.
  - intros H. rewrite Hs. specialize (Hb H). lia.
  - simpl. intros k e' H. apply lookup_delete_Some in H as [_ H]. eauto.
Qed.

Lemma invariant_check (now : Z) (key : string)
      (e : NodeCache.entry Js.obj) (c : NodeCache.cache Js.obj) :
  invariant opts c -> invariant opts (snd (NodeCache._check now key e c)).
Proof.
  intros H. unfold NodeCache._check.
  destruct (NodeCache.expired now e); simpl;
    [apply invariant_del |]; assumption.
Qed.

(** The counters [hits] and [misses] play no part in the invariant. *)
Lemma invariant_counters (c : NodeCache.cache Js.obj) (h m : Z) :
  invariant opts c ->
  invariant opts {| NodeCache.data := NodeCache.data c;
                    NodeCache.hits := h;
                    NodeCache.misses := m;
                    NodeCache.keys := NodeCache.keys c |}.
Proof. intros [Hk Hb Hp]. split; assumption. Qed.

Lemma invariant_get (now : Z) (key : string) (c : NodeCache.cache Js.obj) :
  invariant opts c -> invariant opts (snd (NodeCache.get now key c)).
Proof.
  intros H. unfold NodeCache.get.
  destruct (NodeCache.data c !! key) as [e |].
  - pose proof (invariant_check now key e c H) as H'.
    destruct (NodeCache._check now key e c) as [[] c']; simpl in *;
      apply invariant_counters; assumption.
  - simpl. apply invariant_counters. assumption.
Qed.

Lemma invariant_set (now : Z) (key : string) (w : Js.obj) (c c' : NodeCache.cache Js.obj) :
  Js.has w "fromCache" = false ->
  invariant opts c ->
  NodeCache.set opts now key w c = inr c' ->
  invariant opts c'.
Proof.
  intros Hw [Hk Hb Hp]. unfold NodeCache.set.
  destruct ((NodeCache.maxKeys opts >? -1)
            && (NodeCache.keys c >=? NodeCache.maxKeys opts)) eqn:Hfull;
    [discriminate |].
  intros [= <-].
  assert (Hs : entries
                 {| NodeCache.data :=
                      <[key := NodeCache._wrap opts now w]> (NodeCache.data c);
                    NodeCache.hits := NodeCache.hits c;
                    NodeCache.misses := NodeCache.misses c;
                    NodeCache.keys :=
                      if bool_decide (is_Some (NodeCache.data c !! key))
                      then NodeCache.keys c else NodeCache.keys c + 1 |}
               = if bool_decide (is_Some (NodeCache.data c !! key))
                 then entries c else entries c + 1).
  { unfold entries. simpl. case_bool_decide as Hex.
    - rewrite map_size_insert_Some by assumption. reflexivity.
    - rewrite map_size_insert_None.
      + lia.
      + destruct (NodeCache.data c !! key) eqn:E; [| reflexivity].
        exfalso. apply Hex. eauto. }
  split.
  - rewrite Hs. simpl. rewrite Hk. reflexivity.
  - intros Hn. rewrite Hs. specialize (Hb Hn).
    apply andb_false_iff in Hfull as [Hf | Hf]; [lia |].
    case_bool_decide; lia.
  - simpl. intros k e H.
    destruct (decide (key = k)) as [-> | Hne].
    + rewrite lookup_insert_eq in H. injection H as <-. exact Hw.
    + rewrite lookup_insert_ne in H by assumption. eauto.
Qed.

Lemma invariant_checkData (now : Z) (c : NodeCache.cache Js.obj) :
  invariant opts c -> invariant opts (NodeCache._checkData now c).
Proof.
  unfold NodeCache._checkData.
  generalize (map_to_list (NodeCache.data c)) as l. intros l. revert c.
  induction l as [| [k e] l IH]; intros c H; simpl; [assumption |].
  apply IH. apply invariant_check. assumption.
Qed.

Lemma has_formatWeatherData (now : Z) (d : WeatherService.RawWeather) :
  Js.has (WeatherService.formatWeatherData now d) "fromCache" = false.
Proof. reflexivity. Qed.

Lemma invariant_apply (o : op) (c : NodeCache.cache Js.obj) :
  invariant opts c -> invariant opts (apply opts o c).
Proof.
  intros H. destruct o as [now key | date now key d | now]; simpl.
  - apply invariant_get. assumption.
  - destruct (NodeCache.set opts now key
                (WeatherService.formatWeatherData date d) c) as [e | c'] eqn:E;
      [assumption |].
    eapply invariant_set; [apply has_formatWeatherData | exact H | exact E].
  - apply invariant_checkData. assumption.
Qed.

Lemma reachable_invariant (c : NodeCache.cache Js.obj) :
  reachable opts c -> invariant opts c.
Proof.
  induction 1 as [| o c _ IH]; [apply invariant_empty |].
  apply invariant_apply. assumption.
Qed.

(** A lookup of the service takes a reachable store to a reachable
    one: it is a [get], followed on a miss with a good answer by a
    [set]. *)
Lemma getWeatherByCity_reachable (up : WeatherService.Upstream)
      (now date now' : Z) (city : string) (st : WeatherService.State) :
  reachable opts (WeatherService.cache st) ->
  reachable opts
    (WeatherService.cache
       (snd (WeatherService.getWeatherByCity opts up now date now' city st))).
Proof.
  intros H. unfold WeatherService.getWeatherByCity.
  pose proof (reach_step opts (OpGet now (WeatherService.cacheKey city)) _ H)
    as Hget. simpl in Hget.
  destruct (NodeCache.get now (WeatherService.cacheKey city)
              (WeatherService.cache st)) as [[o |] c1]; simpl in *;
    [assumption |].
  destruct (up city) as [status [d |] | e]; simpl; try assumption.
  destruct (status =? 200); simpl; [| assumption].
  pose proof (reach_step opts
                (OpSet date now' (WeatherService.cacheKey city) d) _ Hget)
    as Hset.
  simpl in Hset.
  destruct (NodeCache.set opts now' (WeatherService.cacheKey city)
              (WeatherService.formatWeatherData date d) c1); simpl;
    assumption.
Qed.

End StoreFacts.

(* ===================================================================== *)
(** ** The two paths of a lookup *)
(* ===================================================================== *)

Section LookupPaths.
Import Js WeatherService.
Variable opts : NodeCache.options.

Lemma get_fst (now : Z) (key : string) (c : NodeCache.cache obj) :
  fst (NodeCache.get now key c) = NodeCache.live now key c.
Proof.
  unfold NodeCache.get, NodeCache.live, NodeCache._check.
  destruct (NodeCache.data c !! key) as [e |]; [| reflexivity].
  destruct (NodeCache.expired now e); reflexivity.
Qed.

(** A hit counts as one and changes nothing else. *)
Lemma get_hit (now : Z) (key : string) (c : NodeCache.cache obj) (o : obj) :
  NodeCache.live now key c = Some o ->
  NodeCache.get now key c
  = (Some o, {| NodeCache.data := NodeCache.data c;
                NodeCache.hits := NodeCache.hits c + 1;
                NodeCache.misses := NodeCache.misses c;
                NodeCache.keys := NodeCache.keys c |}).
Proof.
  unfold NodeCache.get, NodeCache.live, NodeCache._check.
  destruct (NodeCache.data c !! key) as [e |]; [| discriminate].
  destruct (NodeCache.expired now e); [discriminate |].
  intros [= <-]. reflexivity.
Qed.

(** After a miss the key has no entry: it had none, or its entry had
    expired and was deleted. *)
Lemma get_miss (now : Z) (key : string) (c : NodeCache.cache obj) :
  NodeCache.live now key c = None ->
  fst (NodeCache.get now key c) = None
  /\ NodeCache.data (snd (NodeCache.get now key c))
     = delete key (NodeCache.data c)
  /\ NodeCache.hits (snd (NodeCache.get now key c)) = NodeCache.hits c
  /\ NodeCache.misses (snd (NodeCache.get now key c))
     = NodeCache.misses c + 1.
Proof.
  unfold NodeCache.get, NodeCache.live, NodeCache._check, NodeCache.del.
  destruct (NodeCache.data c !! key) as [e |] eqn:E.
  - destruct (NodeCache.expired now e); [| discriminate].
    intros _. simpl. auto.
  - intros _. simpl. rewrite delete_id by assumption. auto.
Qed.

Lemma get_None_absent (now : Z) (key : string) (c c1 : NodeCache.cache obj) :
  NodeCache.get now key c = (None, c1) -> NodeCache.data c1 !! key = None.
Proof.
  intros H.
  assert (Hl : NodeCache.live now key c = None)
    by (rewrite <- get_fst, H; reflexivity).
  destruct (get_miss now key c Hl) as (_ & Hd & _).
  rewrite H in Hd. simpl in Hd. rewrite Hd. apply lookup_delete_eq.
Qed.

(** Tagging a formatted payload appends the tag. *)
Lemma spread_formatted (t : Z) (d : RawWeather) (b : bool) :
  spread_with (formatWeatherData t d) "fromCache" (VBool b)
  = formatWeatherData t d ++ [("fromCache", VBool b)].
Proof. unfold spread_with. apply assign_fresh. reflexivity. Qed.

Lemma get_tagged (t : Z) (d : RawWeather) (b : bool) (k : string) :
  k <> "fromCache" ->
  get (formatWeatherData t d ++ [("fromCache", VBool b)]) k
  = get (formatWeatherData t d) k.
Proof.
  intros Hk. rewrite <- spread_formatted. unfold spread_with.
  apply get_assign_ne. congruence.
Qed.

(** The hit path, lines 20 to 24. *)
Lemma lookup_hit (up : Upstream) (now date now' : Z) (city : string)
      (st : State) (o : obj) :
  NodeCache.live now (cacheKey city) (cache st) = Some o ->
  getWeatherByCity opts up now date now' city st
  = (Return (spread_with o "fromCache" (VBool true)),
     {| cache := {| NodeCache.data := NodeCache.data (cache st);
                    NodeCache.hits := NodeCache.hits (cache st) + 1;
                    NodeCache.misses := NodeCache.misses (cache st);
                    NodeCache.keys := NodeCache.keys (cache st) |};
        requests := requests st |}).
Proof.
  intros H. unfold getWeatherByCity. rewrite (get_hit _ _ _ _ H).
  reflexivity.
Qed.

(** The log of requests after a lookup. *)
Lemma lookup_requests (up : Upstream) (now date now' : Z) (city : string)
      (st : State) :
  requests (snd (getWeatherByCity opts up now date now' city st))
  = match NodeCache.live now (cacheKey city) (cache st) with
    | Some _ => requests st
    | None => requests st ++ [city]
    end.
Proof.
  unfold getWeatherByCity. rewrite <- get_fst.
  destruct (NodeCache.get now (cacheKey city) (cache st)) as [[o |] c1];
    simpl; [reflexivity |].
  destruct (up city) as [status [d |] | e]; simpl; try reflexivity.
  destruct (status =? 200); simpl; [| reflexivity].
  destruct (NodeCache.set opts now' (cacheKey city)
              (formatWeatherData date d) c1); reflexivity.
Qed.

(** The catch block, lines 46 to 49: whatever was thrown in the try
    block, the request is on record and the store is the one the
    [get] left. *)
Lemma lookup_miss_fail (up : Upstream) (now date now' : Z) (city : string)
      (st : State) (e : error) (st' : State) :
  getWeatherByCity opts up now date now' city st = (Throw e, st') ->
  NodeCache.live now (cacheKey city) (cache st) = None
  /\ cache st' = snd (NodeCache.get now (cacheKey city) (cache st))
  /\ requests st' = requests st ++ [city]
  /\ exists e0, e = Error (failure_message e0).
Proof.
  unfold getWeatherByCity. rewrite <- get_fst.
  destruct (NodeCache.get now (cacheKey city) (cache st)) as [[o |] c1];
    simpl; [discriminate |].
  destruct (up city) as [status [d |] | e1]; simpl.
  - destruct (status =? 200); simpl.
    + destruct (NodeCache.set opts now' (cacheKey city)
                  (formatWeatherData date d) c1) as [e2 | c2]; simpl;
        [| discriminate].
      intros [= <- <-]. simpl. eauto 6.
    + intros [= <- <-]. simpl. eauto 6.
  - intros [= <- <-]. simpl. eauto 6.
  - intros [= <- <-]. simpl. eauto 6.
Qed.

(** A lookup that returns data tagged [fromCache: false] went through
    the whole miss path. *)
Lemma lookup_fresh_inv (up : Upstream) (now date now' : Z) (city : string)
      (st : State) (r : obj) (st1 : State) :
  getWeatherByCity opts up now date now' city st = (Return r, st1) ->
  get r "fromCache" = VBool false ->
  exists d c1,
    up city = Fulfilled 200 (Some d)
    /\ NodeCache.get now (cacheKey city) (cache st) = (None, c1)
    /\ NodeCache.set opts now' (cacheKey city) (formatWeatherData date d) c1
       = inr (cache st1)
    /\ r = spread_with (formatWeatherData date d) "fromCache" (VBool false)
    /\ requests st1 = requests st ++ [city].
Proof.
  unfold getWeatherByCity.
  destruct (NodeCache.get now (cacheKey city) (cache st)) as [[o |] c1];
    simpl.
  - intros [= <- <-]. unfold spread_with. rewrite get_assign_eq.
    discriminate.
  - destruct (up city) as [status [d |] | e1]; simpl; try discriminate.
    destruct (status =? 200) eqn:Hs; simpl; [| discriminate].
    apply Z.eqb_eq in Hs. subst status.
    destruct (NodeCache.set opts now' (cacheKey city)
                (formatWeatherData date d) c1) as [e2 | c2] eqn:Hset; simpl;
      [discriminate |].
    intros [= <- <-] _. exists d, c1. simpl. auto.
Qed.

(** What a successful [set] of a key that has no entry stores. *)
Lemma set_inr (now : Z) (key : string) (w : obj)
      (c c' : NodeCache.cache obj) :
  NodeCache.set opts now key w c = inr c' ->
  ((NodeCache.maxKeys opts >? -1)
   && (NodeCache.keys c >=? NodeCache.maxKeys opts)) = false
  /\ NodeCache.data c'
     = <[key := NodeCache._wrap opts now w]> (NodeCache.data c)
  /\ (NodeCache.data c !! key = None ->
      NodeCache.keys c' = NodeCache.keys c + 1)
  /\ NodeCache.hits c' = NodeCache.hits c
  /\ NodeCache.misses c' = NodeCache.misses c.
Proof.
  unfold NodeCache.set.
  destruct ((NodeCache.maxKeys opts >? -1)
            && (NodeCache.keys c >=? NodeCache.maxKeys opts));
    [discriminate |].
  intros [= <-]. simpl. repeat split.
  intros Hn. rewrite bool_decide_eq_false_2; [reflexivity |].
  rewrite Hn. intros [? ?]. discriminate.
Qed.

(** An entry stored at [now'] is served until [stdTTL] seconds have
    passed, and for ever when [stdTTL] is 0. *)
Lemma wrap_not_expired (now' now2 : Z) (w : obj) :
  NodeCache.stdTTL opts = 0
  \/ now2 <= now' + NodeCache.stdTTL opts * 1000 ->
  NodeCache.expired now2 (NodeCache._wrap opts now' w) = false.
Proof.
  intros Hw. unfold NodeCache.expired, NodeCache._wrap. simpl.
  destruct (NodeCache.stdTTL opts =? 0) eqn:E; [reflexivity |].
  apply Z.eqb_neq in E.
  apply andb_false_iff. right. apply Z.ltb_ge. lia.
Qed.

(** With a positive [stdTTL], an entry stored at [now'] has expired
    once more than [stdTTL] seconds have passed. *)
Lemma wrap_expired (now' now2 : Z) (w : obj) :
  0 < NodeCache.stdTTL opts ->
  0 <= now' ->
  now' + NodeCache.stdTTL opts * 1000 < now2 ->
  NodeCache.expired now2 (NodeCache._wrap opts now' w) = true.
Proof.
  intros HT Hn Hw. unfold NodeCache.expired, NodeCache._wrap. simpl.
  destruct (NodeCache.stdTTL opts =? 0) eqn:E; [lia |].
  apply andb_true_iff. split.
  - apply negb_true_iff. apply Z.eqb_neq. lia.
  - apply Z.ltb_lt. lia.
Qed.

End LookupPaths.

(* ===================================================================== *)
(** ** The properties of the specification *)
(* ===================================================================== *)

Section Claims.
Import Js JsString WeatherService.

(** C1.  A city whose normalised key has a live entry is answered from
    the cache: the lookup returns that entry, every property of it as
    it is stored, with [fromCache: true] added, and sends nothing
    upstream (whatever the provider would have said).  In particular,
    when a lookup has returned fresh data, a second lookup of the same
    name in any letter case, made while no more than [stdTTL] seconds
    have passed since the entry was stored (as is one made at once, for
    a [stdTTL] that is not negative) or with entries that never expire,
    returns the same weather data with [fromCache: true] and sends
    nothing upstream. *)
Theorem C1_live_entry_is_served_from_cache (opts : NodeCache.options) :
  (forall (up : Upstream) (now date now' : Z) (city : string) (st : State)
          (o : obj),
      NodeCache.live now (cacheKey city) (cache st) = Some o ->
      exists r st',
        getWeatherByCity opts up now date now' city st = (Return r, st')
        /\ get r "fromCache" = VBool true
        /\ (forall k, k <> "fromCache" ->
                      get r k = get o k /\ has r k = has o k)
        /\ (has o "fromCache" = false ->
            r = o ++ [("fromCache", VBool true)])
        /\ requests st' = requests st)
  /\
  (forall (up up2 : Upstream) (now date now' now2 date2 now2' : Z)
          (city city2 : string) (st st1 : State) (r : obj),
      same_modulo_case city city2 ->
      NodeCache.stdTTL opts = 0
      \/ now2 <= now' + NodeCache.stdTTL opts * 1000 ->
      getWeatherByCity opts up now date now' city st = (Return r, st1) ->
      get r "fromCache" = VBool false ->
      exists d st2,
        up city = Fulfilled 200 (Some d)
        /\ r = formatWeatherData date d ++ [("fromCache", VBool false)]
        /\ getWeatherByCity opts up2 now2 date2 now2' city2 st1
           = (Return (formatWeatherData date d ++ [("fromCache", VBool true)]),
              st2)
        /\ requests st2 = requests st1).
Proof.
  split.
  - intros up now date now' city st o Hlive.
    eexists. eexists. split; [apply lookup_hit; exact Hlive |].
    unfold spread_with.
    split; [apply get_assign_eq |].
    split.
    { intros k Hk. split; [apply get_assign_ne | apply has_assign_ne];
        congruence. }
    split; [apply assign_fresh | reflexivity].
  - intros up up2 now date now' now2 date2 now2' city city2 st st1 r
           Hcase Hnow H1 Hfresh.
    destruct (lookup_fresh_inv opts up now date now' city st r st1 H1 Hfresh)
      as (d & c1 & Hup & Hget & Hset & -> & _).
    apply set_inr in Hset as (_ & Hdata & _).
    assert (Hkey : cacheKey city2 = cacheKey city).
    { unfold cacheKey.
      rewrite (toLowerCase_same_modulo_case city city2 Hcase). reflexivity. }
    assert (Hlive : NodeCache.live now2 (cacheKey city2) (cache st1)
                    = Some (formatWeatherData date d)).
    { unfold NodeCache.live. rewrite Hkey, Hdata, lookup_insert_eq.
      rewrite wrap_not_expired by assumption. reflexivity. }
    exists d. eexists.
    split; [exact Hup |]. split; [apply spread_formatted |].
    rewrite (lookup_hit opts up2 now2 date2 now2' city2 st1 _ Hlive).
    rewrite spread_formatted. split; reflexivity.
Qed.

(** C2, as the code has it.  For a fresh result whose payload has
    numbers as [temp_c] and [feelslike_c], [temp] and [feels_like] are
    those numbers rounded to the nearest integer (ties upwards), and
    [temp_min] and [temp_max] are the binary64 difference [temp_c - 2]
    and sum [temp_c + 2] rounded to the nearest integer (ties upwards);
    [is_day] is "day" when the payload's flag is the number 1 and
    "night" for every other flag.  For the London payload of the
    specification, [lookup("london")] returns temperature 15,
    feels_like 14, temp_min 13, temp_max 17 and is_day "day". *)
Theorem C2_fresh_result_is_the_formatted_payload :
  (forall (opts : NodeCache.options) (up : Upstream) (now date now' : Z)
          (city : string) (st st' : State) (r : obj) (d : RawWeather)
          (cur : Current),
      getWeatherByCity opts up now date now' city st = (Return r, st') ->
      get r "fromCache" = VBool false ->
      up city = Fulfilled 200 (Some d) ->
      current d = Some cur ->
      (forall t : float,
          temp_c cur = ONumber t ->
          nearest_integer t (get_path (VObj r) ["main"; "temp"])
          /\ nearest_integer (SFsub 53 1024 t (of_Z 2))
                             (get_path (VObj r) ["main"; "temp_min"])
          /\ nearest_integer (SFadd 53 1024 t (of_Z 2))
                             (get_path (VObj r) ["main"; "temp_max"]))
      /\ (forall f : float,
             feelslike_c cur = ONumber f ->
             nearest_integer f (get_path (VObj r) ["main"; "feels_like"]))
      /\ (forall q, is_day cur = VNum q -> (q == 1)%Q ->
                    get r "is_day" = VStr "day")
      /\ ((forall q, is_day cur = VNum q -> ~ (q == 1)%Q) ->
          get r "is_day" = VStr "night"))
  /\
  (exists (r : obj) (st' : State),
      getWeatherByCity Sample.default_options Sample.always_london
                       1000 1000 1000 "london" initial = (Return r, st')
      /\ get_path (VObj r) ["main"; "temp"] = VNum 15
      /\ get_path (VObj r) ["main"; "feels_like"] = VNum 14
      /\ get_path (VObj r) ["main"; "temp_min"] = VNum 13
      /\ get_path (VObj r) ["main"; "temp_max"] = VNum 17
      /\ get r "is_day" = VStr "day"
      /\ get r "fromCache" = VBool false).
Proof.
  split.
  - intros opts up now date now' city st st' r d cur H Hfresh Hup Hcur.
    destruct (lookup_fresh_inv opts up now date now' city st r st' H Hfresh)
      as (d' & c1 & Hup' & _ & _ & -> & _).
    rewrite Hup in Hup'. injection Hup' as <-.
    unfold spread_with, formatWeatherData. rewrite Hcur.
    cbn [assign get get_path String.eqb Ascii.eqb Bool.eqb opt_operand
         current].
    split; [| split; [| split]].
    + intros t Ht. rewrite Ht. repeat split; apply Math_round_nearest.
    + intros f Hf. rewrite Hf. apply Math_round_nearest.
    + intros q Hq Hone. unfold opt. rewrite Hq. simpl.
      apply Qeq_bool_iff in Hone. rewrite Hone. reflexivity.
    + intros Hnot. unfold opt.
      destruct (is_day cur) as [| | q | | | | |]; simpl; try reflexivity.
      destruct (Qeq_bool q 1) eqn:E; [| reflexivity].
      apply Qeq_bool_iff in E. exfalso. exact (Hnot q eq_refl E).
  - eexists. eexists. split; [vm_compute; reflexivity |].
    repeat split; vm_compute; reflexivity.
Qed.

(** A read of an expired entry deletes it and reports a miss. *)
Lemma get_expired (now : Z) (key : string) (c : NodeCache.cache obj)
      (e : NodeCache.entry obj) :
  NodeCache.data c !! key = Some e ->
  NodeCache.expired now e = true ->
  NodeCache.get now key c
  = (None, {| NodeCache.data := delete key (NodeCache.data c);
              NodeCache.hits := NodeCache.hits c;
              NodeCache.misses := NodeCache.misses c + 1;
              NodeCache.keys := NodeCache.keys c - 1 |}).
Proof.
  intros He Hx. unfold NodeCache.get, NodeCache._check, NodeCache.del.
  rewrite !He, Hx. reflexivity.
Qed.

(** A read of a key that has no entry reports a miss. *)
Lemma get_absent (now : Z) (key : string) (c : NodeCache.cache obj) :
  NodeCache.data c !! key = None ->
  NodeCache.get now key c
  = (None, {| NodeCache.data := NodeCache.data c;
              NodeCache.hits := NodeCache.hits c;
              NodeCache.misses := NodeCache.misses c + 1;
              NodeCache.keys := NodeCache.keys c |}).
Proof. intros He. unfold NodeCache.get. rewrite He. reflexivity. Qed.

(** C3, as the code has it.  With a maximum [maxKeys] that is not
    negative, no reachable store holds more than [maxKeys] entries, and
    a lookup keeps it so.  Nothing is ever evicted: when the store is
    full, a lookup of a key that has no entry stores nothing and keeps
    every entry, whatever the provider answers, so also when it
    answers well. *)
Theorem C3_store_is_bounded_and_evicts_nothing
        (opts : NodeCache.options) :
  0 <= NodeCache.maxKeys opts ->
  (forall c, Reach.reachable opts c ->
             Reach.entries c <= NodeCache.maxKeys opts)
  /\
  (forall (up : Upstream) (now date now' : Z) (city : string) (st : State),
      Reach.reachable opts (cache st) ->
      Reach.entries
        (cache (snd (getWeatherByCity opts up now date now' city st)))
      <= NodeCache.maxKeys opts)
  /\
  (forall (up : Upstream) (now date now' : Z) (city : string) (st : State),
      Reach.reachable opts (cache st) ->
      Reach.entries (cache st) = NodeCache.maxKeys opts ->
      NodeCache.data (cache st) !! cacheKey city = None ->
      NodeCache.data
        (cache (snd (getWeatherByCity opts up now date now' city st)))
      = NodeCache.data (cache st)).
Proof.
  intros HN. split; [| split].
  - intros c Hc. apply (Reach.inv_bound _ _ (reachable_invariant opts c Hc)).
    assumption.
  - intros up now date now' city st Hst.
    apply (Reach.inv_bound opts); [| assumption].
    apply reachable_invariant. apply getWeatherByCity_reachable.
    assumption.
  - intros up now date now' city st Hst Hfull Habs.
    pose proof (Reach.inv_keys _ _ (reachable_invariant opts _ Hst)) as Hk.
    unfold getWeatherByCity. rewrite (get_absent now _ _ Habs).
    destruct (up city) as [status [d |] | e]; simpl; try reflexivity.
    destruct (status =? 200); simpl; [| reflexivity].
    unfold NodeCache.set. simpl.
    replace ((NodeCache.maxKeys opts >? -1)
             && (NodeCache.keys (cache st) >=? NodeCache.maxKeys opts))
      with true; [reflexivity |].
    symmetry. apply andb_true_iff. split.
    + apply Z.gtb_lt. lia.
    + apply Z.geb_le. lia.
Qed.

(** A read of an entry that has not expired is a hit. *)
Lemma live_entry (now : Z) (key : string) (c : NodeCache.cache obj)
      (e : NodeCache.entry obj) :
  NodeCache.data c !! key = Some e ->
  now <= NodeCache.t e ->
  NodeCache.live now key c = Some (NodeCache.v e).
Proof.
  intros He Hnow. unfold NodeCache.live, NodeCache.expired. rewrite He.
  replace (NodeCache.t e <? now) with false
    by (symmetry; apply Z.ltb_ge; assumption).
  rewrite andb_false_r. reflexivity.
Qed.

(** What a lookup does with a live entry: it returns it, tagged, and
    changes neither the entries nor the log of requests. *)
Lemma lookup_live (opts : NodeCache.options) (up : Upstream)
      (now date now' : Z) (city : string) (st : State) (o : obj) :
  NodeCache.live now (cacheKey city) (cache st) = Some o ->
  exists r st',
    getWeatherByCity opts up now date now' city st = (Return r, st')
    /\ get r "fromCache" = VBool true
    /\ (forall k, k <> "fromCache" -> get r k = get o k)
    /\ requests st' = requests st
    /\ NodeCache.data (cache st') = NodeCache.data (cache st).
Proof.
  intros Hlive. eexists. eexists.
  split; [apply lookup_hit; exact Hlive |].
  unfold spread_with. split; [apply get_assign_eq |].
  split; [| split; reflexivity].
  intros k Hk. apply get_assign_ne. congruence.
Qed.

(** What a lookup does with an expired entry, in a reachable store: the
    entry is deleted, a request goes upstream, and a good answer is
    stored, for the store has room again. *)
Lemma lookup_expired (opts : NodeCache.options) (up : Upstream)
      (now date now' : Z) (city : string) (st : State)
      (e : NodeCache.entry obj) :
  Reach.reachable opts (cache st) ->
  NodeCache.data (cache st) !! cacheKey city = Some e ->
  0 < NodeCache.t e < now ->
  NodeCache.live now (cacheKey city) (cache st) = None
  /\ requests (snd (getWeatherByCity opts up now date now' city st))
     = requests st ++ [city]
  /\ (forall d : RawWeather,
         up city = Fulfilled 200 (Some d) ->
         exists st',
           getWeatherByCity opts up now date now' city st
           = (Return (formatWeatherData date d ++ [("fromCache", VBool false)]),
              st')
           /\ NodeCache.data (cache st') !! cacheKey city
              = Some (NodeCache._wrap opts now' (formatWeatherData date d))).
Proof.
  intros Hst He [Hpos Hlate].
  assert (Hx : NodeCache.expired now e = true).
  { unfold NodeCache.expired. apply andb_true_iff. split.
    - apply negb_true_iff, Z.eqb_neq. lia.
    - apply Z.ltb_lt. assumption. }
  split; [unfold NodeCache.live; rewrite He, Hx; reflexivity |].
  split.
  - rewrite lookup_requests. unfold NodeCache.live. rewrite He, Hx.
    reflexivity.
  - intros d Hup.
    destruct (reachable_invariant opts _ Hst) as [Hk Hb _].
    assert (Hsize : 0 < Reach.entries (cache st)).
    { unfold Reach.entries.
      assert (size (NodeCache.data (cache st)) ≠ 0%nat)
        by (apply map_size_ne_0_lookup; eauto).
      lia. }
    unfold getWeatherByCity.
    rewrite (get_expired now _ _ _ He Hx), Hup. simpl.
    unfold NodeCache.set. simpl.
    replace ((NodeCache.maxKeys opts >? -1)
             && (NodeCache.keys (cache st) - 1 >=? NodeCache.maxKeys opts))
      with false.
    + eexists. split; [reflexivity |].
      simpl. apply lookup_insert_eq.
    + symmetry. apply andb_false_iff.
      destruct (Z.lt_ge_cases (NodeCache.maxKeys opts) 0) as [Hneg | Hnn].
      * left. rewrite Z.gtb_ltb. apply Z.ltb_ge. lia.
      * right. specialize (Hb Hnn). rewrite Z.geb_leb. apply Z.leb_gt. lia.
Qed.

(** C4, as the code has it.  With a positive time to live [stdTTL], an
    entry stored at an instant lives for [stdTTL] seconds: its expiry
    is that instant plus [stdTTL] seconds; as long as the expiry has
    not passed, a lookup of its key is served from the cache and leaves
    the entry as it is; once it has passed, the next lookup of the key
    does not return the entry but sends a request upstream and returns
    the new answer with [fromCache: false].  So a lookup that stores, a
    second one within the time to live and a third one after it are a
    miss, a hit and a miss.  With [stdTTL] 0 an entry never expires.
    (An expiry of 0 is how the store writes "never": the instants of
    the clock, milliseconds since 1970, are taken positive where that
    matters.) *)
Theorem C4_entry_lives_for_stdTTL_seconds (opts : NodeCache.options) :
  (0 < NodeCache.stdTTL opts ->
   (forall (up : Upstream) (now date now' : Z) (city : string)
           (st st1 : State) (r : obj),
       getWeatherByCity opts up now date now' city st = (Return r, st1) ->
       get r "fromCache" = VBool false ->
       exists w,
         r = w ++ [("fromCache", VBool false)]
         /\ NodeCache.data (cache st1) !! cacheKey city
            = Some {| NodeCache.t := now' + NodeCache.stdTTL opts * 1000;
                      NodeCache.v := w |})
   /\
   (forall (up : Upstream) (now date now' : Z) (city : string) (st : State)
           (e : NodeCache.entry obj),
       NodeCache.data (cache st) !! cacheKey city = Some e ->
       now <= NodeCache.t e ->
       exists r st',
         getWeatherByCity opts up now date now' city st = (Return r, st')
         /\ get r "fromCache" = VBool true
         /\ (forall k, k <> "fromCache" -> get r k = get (NodeCache.v e) k)
         /\ requests st' = requests st
         /\ NodeCache.data (cache st') = NodeCache.data (cache st))
   /\
   (forall (up : Upstream) (now date now' : Z) (city : string) (st : State)
           (e : NodeCache.entry obj),
       Reach.reachable opts (cache st) ->
       NodeCache.data (cache st) !! cacheKey city = Some e ->
       0 < NodeCache.t e < now ->
       NodeCache.live now (cacheKey city) (cache st) = None
       /\ requests (snd (getWeatherByCity opts up now date now' city st))
          = requests st ++ [city]
       /\ (forall d : RawWeather,
              up city = Fulfilled 200 (Some d) ->
              exists st',
                getWeatherByCity opts up now date now' city st
                = (Return (formatWeatherData date d
                           ++ [("fromCache", VBool false)]), st')
                /\ NodeCache.data (cache st') !! cacheKey city
                   = Some {| NodeCache.t :=
                               now' + NodeCache.stdTTL opts * 1000;
                             NodeCache.v := formatWeatherData date d |}))
   /\
   (forall (up1 up2 up3 : Upstream)
           (now1 date1 now1' now2 date2 now2' now3 date3 now3' : Z)
           (city : string)
           (st0 st1 : State) (r1 : obj) (d3 : RawWeather),
       Reach.reachable opts (cache st0) ->
       0 <= now1' ->
       getWeatherByCity opts up1 now1 date1 now1' city st0 = (Return r1, st1) ->
       get r1 "fromCache" = VBool false ->
       now2 <= now1' + NodeCache.stdTTL opts * 1000 ->
       now1' + NodeCache.stdTTL opts * 1000 < now3 ->
       up3 city = Fulfilled 200 (Some d3) ->
       exists r2 st2 st3,
         getWeatherByCity opts up2 now2 date2 now2' city st1 = (Return r2, st2)
         /\ get r2 "fromCache" = VBool true
         /\ (forall k, k <> "fromCache" -> get r2 k = get r1 k)
         /\ requests st2 = requests st1
         /\ getWeatherByCity opts up3 now3 date3 now3' city st2
            = (Return (formatWeatherData date3 d3
                       ++ [("fromCache", VBool false)]), st3)
         /\ requests st3 = requests st2 ++ [city]))
  /\
  (NodeCache.stdTTL opts = 0 ->
   forall (up up2 : Upstream) (now date now' now2 date2 now2' : Z)
          (city : string)
          (st st1 : State) (r : obj),
     getWeatherByCity opts up now date now' city st = (Return r, st1) ->
     get r "fromCache" = VBool false ->
     exists r2 st2,
       getWeatherByCity opts up2 now2 date2 now2' city st1 = (Return r2, st2)
       /\ get r2 "fromCache" = VBool true
       /\ requests st2 = requests st1).
Proof.
  assert (Hstamp :
            forall (up : Upstream) (now date now' : Z) (city : string)
                   (st st1 : State) (r : obj),
              getWeatherByCity opts up now date now' city st
              = (Return r, st1) ->
              get r "fromCache" = VBool false ->
              exists d,
                r = formatWeatherData date d ++ [("fromCache", VBool false)]
                /\ NodeCache.data (cache st1) !! cacheKey city
                   = Some (NodeCache._wrap opts now'
                             (formatWeatherData date d))).
  { intros up now date now' city st st1 r H Hfresh.
    destruct (lookup_fresh_inv opts up now date now' city st r st1 H Hfresh)
      as (d & c1 & _ & _ & Hset & -> & _).
    apply set_inr in Hset as (_ & Hdata & _).
    exists d. split; [apply spread_formatted |].
    rewrite Hdata. apply lookup_insert_eq. }
  split.
  - intros HT.
    assert (Hwrap : forall (now' : Z) (w : obj),
               NodeCache._wrap opts now' w
               = {| NodeCache.t := now' + NodeCache.stdTTL opts * 1000;
                    NodeCache.v := w |}).
    { intros now' w. unfold NodeCache._wrap.
      replace (NodeCache.stdTTL opts =? 0) with false
        by (symmetry; apply Z.eqb_neq; lia).
      reflexivity. }
    split; [| split; [| split]].
    + intros up now date now' city st st1 r H Hfresh.
      destruct (Hstamp up now date now' city st st1 r H Hfresh)
        as (d & -> & He).
      eexists. split; [reflexivity |]. rewrite He, Hwrap. reflexivity.
    + intros up now date now' city st e He Hnow.
      apply lookup_live. apply live_entry; assumption.
    + intros up now date now' city st e Hst He Hlate.
      destruct (lookup_expired opts up now date now' city st e Hst He Hlate)
        as (H1 & H2 & H3).
      split; [exact H1 |]. split; [exact H2 |].
      intros d Hup. destruct (H3 d Hup) as (st' & Hl & Hd).
      exists st'. split; [exact Hl |]. rewrite Hd, Hwrap. reflexivity.
    + intros up1 up2 up3 now1 date1 now1' now2 date2 now2' now3 date3 now3'
             city st0 st1 r1 d3 Hst0 Hclock H1 Hfresh Hnow2 Hnow3 Hup3.
      destruct (Hstamp up1 now1 date1 now1' city st0 st1 r1 H1 Hfresh)
        as (d1 & -> & He).
      rewrite Hwrap in He.
      pose proof (getWeatherByCity_reachable
                    opts up1 now1 date1 now1' city st0 Hst0) as Hst1.
      rewrite H1 in Hst1. simpl in Hst1.
      destruct (lookup_live opts up2 now2 date2 now2' city st1 _
                  (live_entry now2 _ _ _ He Hnow2))
        as (r2 & st2 & H2 & Hflag & Hsame & Hreq & Hdata).
      pose proof (getWeatherByCity_reachable
                    opts up2 now2 date2 now2' city st1 Hst1) as Hst2.
      rewrite H2 in Hst2. simpl in Hst2.
      rewrite <- Hdata in He.
      destruct (lookup_expired opts up3 now3 date3 now3' city st2 _ Hst2 He)
        as (_ & Hreq3 & H3); [simpl; lia |].
      destruct (H3 d3 Hup3) as (st3 & Hl3 & _).
      exists r2, st2, st3.
      split; [exact H2 |]. split; [exact Hflag |].
      split.
      { intros k Hk. rewrite (Hsame k Hk). cbn [NodeCache.v].
        symmetry. apply get_tagged. exact Hk. }
      split; [exact Hreq |]. split; [exact Hl3 |].
      rewrite Hl3 in Hreq3. exact Hreq3.
  - intros HT up up2 now date now' now2 date2 now2' city st st1 r H Hfresh.
    destruct (Hstamp up now date now' city st st1 r H Hfresh)
      as (d & -> & He).
    assert (Hlive : NodeCache.live now2 (cacheKey city) (cache st1)
                    = Some (formatWeatherData date d)).
    { unfold NodeCache.live. rewrite He.
      rewrite wrap_not_expired by (left; exact HT). reflexivity. }
    destruct (lookup_live opts up2 now2 date2 now2' city st1 _ Hlive)
      as (r2 & st2 & H2 & Hflag & _ & Hreq & _).
    exists r2, st2. auto.
Qed.

(** The test of line 32 rejects exactly the absent city, the city that
    is not a string, and the string of white space only. *)
Lemma accepted_None_iff (s : string) :
  WeatherController.accepted (WeatherController.QString s) = None
  <-> whitespace_only s = true.
Proof.
  unfold WeatherController.accepted. split.
  - destruct (isEmpty s) eqn:E1; simpl.
    + apply isEmpty_true in E1. subst s. reflexivity.
    + destruct (isEmpty (trim s)) eqn:E2; [| discriminate].
      intros _. apply trim_empty_whitespace_only.
      apply isEmpty_true. assumption.
  - intros H. rewrite (trim_whitespace_only s H). simpl.
    rewrite orb_true_r. reflexivity.
Qed.

(** C5.  A city that is empty or made of white space only is answered
    with status 400 and the message "Please provide a valid city
    name"; the state is left as it was, so the cache was not read (its
    hit and miss counters stand) and nothing was sent upstream.  This
    holds in particular for "" and for "   ". *)
Theorem C5_blank_city_is_rejected_with_400
        (opts : NodeCache.options) (up : Upstream) (development : bool)
        (now date now' sent : Z) (st : State) :
  (forall s : string,
      whitespace_only s = true ->
      WeatherController.getWeatherByCity
        opts up development now date now' sent
        (WeatherController.QString s) st
      = (WeatherController.Responded WeatherController.bad_request, st))
  /\ WeatherController.getWeatherByCity
       opts up development now date now' sent
       (WeatherController.QString "") st
     = (WeatherController.Responded WeatherController.bad_request, st)
  /\ WeatherController.getWeatherByCity
       opts up development now date now' sent
       (WeatherController.QString "   ") st
     = (WeatherController.Responded WeatherController.bad_request, st)
  /\ WeatherController.status WeatherController.bad_request = 400
  /\ get (WeatherController.body WeatherController.bad_request) "message"
     = VStr "Please provide a valid city name".
Proof.
  assert (Hall : forall s : string,
             whitespace_only s = true ->
             WeatherController.getWeatherByCity
               opts up development now date now' sent
               (WeatherController.QString s) st
             = (WeatherController.Responded WeatherController.bad_request,
                st)).
  { intros s Hs. unfold WeatherController.getWeatherByCity.
    rewrite (proj2 (accepted_None_iff s) Hs). reflexivity. }
  split; [exact Hall |].
  split; [apply Hall; reflexivity |].
  split; [apply Hall; reflexivity |].
  split; reflexivity.
Qed.


Lemma toLowerCase_length (s : string) :
  String.length (toLowerCase s) = String.length s.
Proof. induction s; simpl; congruence. Qed.

Lemma cacheKey_inj_lower (a b : string) :
  cacheKey a = cacheKey b <-> toLowerCase a = toLowerCase b.
Proof.
  unfold cacheKey. simpl. split; [| intros ->; reflexivity].
  intros H. injection H as H. exact H.
Qed.

(** C7, as the code has it.  The key is "weather_" followed by the
    lower-cased city, the city being taken as it came: two cities have
    the same key exactly when their lower-cased forms are equal.  So
    cities that differ only in letter case share one entry, and cities
    of different length, such as a city and the same city with white
    space before or after it, never do. *)
Theorem C7_key_is_the_lowercased_city_untrimmed (a b : string) :
  cacheKey a = String.append "weather_" (toLowerCase a)
  /\ (cacheKey a = cacheKey b <-> toLowerCase a = toLowerCase b)
  /\ (same_modulo_case a b -> cacheKey a = cacheKey b)
  /\ (String.length a <> String.length b -> cacheKey a <> cacheKey b).
Proof.
  split; [reflexivity |]. split; [apply cacheKey_inj_lower |]. split.
  - intros H. apply cacheKey_inj_lower.
    apply toLowerCase_same_modulo_case. assumption.
  - intros Hlen H. apply cacheKey_inj_lower in H.
    apply Hlen. rewrite <- (toLowerCase_length a), <- (toLowerCase_length b).
    rewrite H. reflexivity.
Qed.

(** Whatever the service throws, the handler ends with the
    [ReferenceError] of its catch block's first statement. *)
Lemma controller_service_failure
      (opts : NodeCache.options) (up : Upstream) (development : bool)
      (now date now' sent : Z) (q : WeatherController.QueryValue) (s : string)
      (st st' : State) (e : error) :
  WeatherController.accepted q = Some s ->
  getWeatherByCity opts up now date now' s st = (Throw e, st') ->
  WeatherController.getWeatherByCity
    opts up development now date now' sent q st
  = (WeatherController.Unhandled (ReferenceError "city"), st').
Proof.
  intros Hq H. unfold WeatherController.getWeatherByCity.
  rewrite Hq, H. reflexivity.
Qed.

(** The handler sends status 400 or status 200 and no other. *)
Lemma controller_statuses
      (opts : NodeCache.options) (up : Upstream) (development : bool)
      (now date now' sent : Z) (q : WeatherController.QueryValue)
      (st st' : State) (r : WeatherController.Response) :
  WeatherController.getWeatherByCity
    opts up development now date now' sent q st
  = (WeatherController.Responded r, st') ->
  WeatherController.status r = 400 \/ WeatherController.status r = 200.
Proof.
  unfold WeatherController.getWeatherByCity.
  destruct (WeatherController.accepted q) as [s |].
  - destruct (getWeatherByCity opts up now date now' s st) as [[w | e] st1];
      simpl; [| discriminate].
    intros [= <- _]. right. reflexivity.
  - intros [= <- _]. left. reflexivity.
Qed.

(** C8, at the provider's answer for an unknown city (HTTP 400 with
    message "No matching location found.").  The service throws
    "Failed to fetch weather data: No matching location found."; the
    handler's catch block then throws a [ReferenceError] before it
    sends anything, in development and in production alike.  The
    status the block would go on to choose for that message is 500,
    because "not found" does not occur in it. *)
Theorem C8_unknown_city_is_not_answered_with_404 :
  fst (getWeatherByCity Sample.default_options Sample.unknown_city
                        1000 1000 1000 "Atlantis" initial)
  = Throw (Error "Failed to fetch weather data: No matching location found.")
  /\ (forall development : bool,
         fst (WeatherController.getWeatherByCity
                Sample.default_options Sample.unknown_city development
                1000 1000 1000 1000
                (WeatherController.QString "Atlantis") initial)
         = WeatherController.Unhandled (ReferenceError "city"))
  /\ includes "Failed to fetch weather data: No matching location found."
              "not found" = false
  /\ (forall development : bool,
         WeatherController.status
           (WeatherController.error_response development
              (Error "Failed to fetch weather data: No matching location found."))
         = 500).
Proof.
  split; [vm_compute; reflexivity |].
  split; [intros []; vm_compute; reflexivity |].
  split; [vm_compute; reflexivity |].
  intros []; vm_compute; reflexivity.
Qed.

Lemma failure_message_prefix (e : error) :
  String.prefix "Failed to fetch weather data: " (failure_message e) = true.
Proof.
  unfold failure_message.
  generalize (or_else (response_error_message e) (message e)) as m.
  intros m. simpl. destruct m; reflexivity.
Qed.

(** C9.  Every error the service's lookup throws is a plain [Error]:
    its name is "Error", it carries no response, and its message
    starts with "Failed to fetch weather data: ".  What follows the
    prefix is all that tells one cause from another. *)
Theorem C9_every_failure_is_a_plain_Error
        (opts : NodeCache.options) (up : Upstream) (now date now' : Z)
        (city : string) (st st' : State) (e : error) :
  getWeatherByCity opts up now date now' city st = (Throw e, st') ->
  name e = "Error"
  /\ response_error_message e = None
  /\ String.prefix "Failed to fetch weather data: " (message e) = true
  /\ exists m, e = Error (String.append "Failed to fetch weather data: " m).
Proof.
  intros H. apply lookup_miss_fail in H as (_ & _ & _ & e0 & ->).
  split; [reflexivity |]. split; [reflexivity |].
  split; [apply failure_message_prefix |].
  eexists. reflexivity.
Qed.

Lemma live_Some_entry (now : Z) (key : string) (c : NodeCache.cache obj)
      (o : obj) :
  NodeCache.live now key c = Some o ->
  exists e, NodeCache.data c !! key = Some e /\ NodeCache.v e = o.
Proof.
  unfold NodeCache.live.
  destruct (NodeCache.data c !! key) as [e |]; [| discriminate].
  destruct (NodeCache.expired now e); [discriminate |].
  intros [= <-]. eauto.
Qed.

(** C10.  No stored object has a [fromCache] property, in any
    reachable store.  On a hit the lookup returns a new object, the
    stored one with [fromCache: true] appended, and the stored entries
    are as before.  On a miss with a good answer the stored object is
    the formatted payload, without [fromCache], and what is returned
    is that object with [fromCache: false] appended. *)
Theorem C10_stored_objects_never_carry_fromCache
        (opts : NodeCache.options) :
  (forall c k e,
      Reach.reachable opts c ->
      NodeCache.data c !! k = Some e ->
      has (NodeCache.v e) "fromCache" = false)
  /\
  (forall (up : Upstream) (now date now' : Z) (city : string) (st : State)
          (o : obj),
      Reach.reachable opts (cache st) ->
      NodeCache.live now (cacheKey city) (cache st) = Some o ->
      exists st',
        getWeatherByCity opts up now date now' city st
        = (Return (o ++ [("fromCache", VBool true)]), st')
        /\ NodeCache.data (cache st') = NodeCache.data (cache st)
        /\ Reach.reachable opts (cache st'))
  /\
  (forall (up : Upstream) (now date now' : Z) (city : string) (st st' : State)
          (r : obj),
      Reach.reachable opts (cache st) ->
      getWeatherByCity opts up now date now' city st = (Return r, st') ->
      get r "fromCache" = VBool false ->
      exists e,
        NodeCache.data (cache st') !! cacheKey city = Some e
        /\ has (NodeCache.v e) "fromCache" = false
        /\ r = NodeCache.v e ++ [("fromCache", VBool false)]
        /\ Reach.reachable opts (cache st')).
Proof.
  split; [| split].
  - intros c k e Hc He.
    exact (Reach.inv_plain _ _ (reachable_invariant opts c Hc) k e He).
  - intros up now date now' city st o Hst Hlive.
    destruct (live_Some_entry _ _ _ _ Hlive) as (e & He & <-).
    pose proof (Reach.inv_plain _ _ (reachable_invariant opts _ Hst) _ _ He)
      as Hplain.
    pose proof (getWeatherByCity_reachable opts up now date now' city st Hst)
      as Hreach.
    rewrite (lookup_hit opts up now date now' city st _ Hlive) in Hreach |- *.
    simpl in Hreach.
    unfold spread_with. rewrite assign_fresh by assumption.
    eexists. split; [reflexivity |]. split; [reflexivity | exact Hreach].
  - intros up now date now' city st st' r Hst H Hfresh.
    pose proof (getWeatherByCity_reachable opts up now date now' city st Hst)
      as Hreach.
    rewrite H in Hreach. simpl in Hreach.
    destruct (lookup_fresh_inv opts up now date now' city st r st' H Hfresh)
      as (d & c1 & _ & _ & Hset & -> & _).
    apply set_inr in Hset as (_ & Hdata & _).
    exists (NodeCache._wrap opts now' (formatWeatherData date d)).
    split; [rewrite Hdata; apply lookup_insert_eq |].
    split; [reflexivity |]. split; [reflexivity | exact Hreach].
Qed.

End Claims.

(* ===================================================================== *)
(** ** Where the code departs from the specification *)
(* ===================================================================== *)

Section Departures.
Import Js JsString WeatherService Sample.

Lemma after_paris_reachable : Reach.reachable one_slot (cache after_paris).
Proof.
  unfold after_paris. apply getWeatherByCity_reachable. apply Reach.reach_empty.
Qed.

Lemma after_london_reachable :
  Reach.reachable default_options (cache after_london).
Proof.
  unfold after_london. apply getWeatherByCity_reachable.
  apply Reach.reach_empty.
Qed.

(** Against C2: for [temp_c] 0.49999999999999994, the largest number
    below one half, the lookup returns [temp] 0, [temp_min] -1 and
    [temp_max] 3: the binary64 difference is -1.5 and the binary64 sum is
    2.5, and both are rounded upwards.  The current temperature minus
    and plus 2, rounded, are -2 and 2, as are [temp - 2] and
    [temp + 2]. *)
Lemma C2_counterexample_bounds_are_rounded_from_binary64_results :
  exists (r : obj) (st' : State),
    getWeatherByCity default_options (always (london_at (ONumber below_half)))
                     1000 1000 1000 "london" initial = (Return r, st')
    /\ get r "fromCache" = VBool false
    /\ (to_Q below_half == 9007199254740991 # 18014398509481984)%Q
    /\ get_path (VObj r) ["main"; "temp"] = VNum 0
    /\ get_path (VObj r) ["main"; "temp_min"] = VNum (-1)
    /\ get_path (VObj r) ["main"; "temp_max"] = VNum 3
    /\ round (to_Q below_half - 2) = -2
    /\ round (to_Q below_half + 2) = 2.
Proof.
  eexists. eexists. split; [vm_compute; reflexivity |].
  repeat split; vm_compute; reflexivity.
Qed.

(** A [temp_c] that is the string "15.4" gives [temp] 15 and
    [temp_min] 13, and [temp_max] 15: ["15.4" + 2] is the string
    "15.42". *)
Remark string_temperature_is_concatenated :
  exists (r : obj) (st' : State),
    getWeatherByCity default_options (always (london_at (OString "15.4")))
                     1000 1000 1000 "london" initial = (Return r, st')
    /\ get_path (VObj r) ["main"; "temp"] = VNum 15
    /\ get_path (VObj r) ["main"; "temp_min"] = VNum 13
    /\ get_path (VObj r) ["main"; "temp_max"] = VNum 15.
Proof.
  eexists. eexists. split; [vm_compute; reflexivity |].
  repeat split; vm_compute; reflexivity.
Qed.

(** Against C3: a store with one slot that holds "paris" is full; the
    provider answers the lookup of "rome" well, and yet the lookup
    throws, "rome" is not stored, and "paris", the oldest entry, is
    still there. *)
Lemma C3_counterexample_full_store_evicts_nothing :
  Reach.reachable one_slot (cache after_paris)
  /\ Reach.entries (cache after_paris) = NodeCache.maxKeys one_slot
  /\ NodeCache.data (cache after_paris) !! cacheKey "rome" = None
  /\ always_london "rome" = Fulfilled 200 (Some london)
  /\ fst (getWeatherByCity one_slot always_london 2000 2000 2000 "rome"
                           after_paris)
     = Throw (Error "Failed to fetch weather data: Cache max keys amount exceeded")
  /\ NodeCache.data
       (cache (snd (getWeatherByCity one_slot always_london 2000 2000 2000
                                     "rome" after_paris)))
     !! cacheKey "rome" = None
  /\ is_Some
       (NodeCache.data
          (cache (snd (getWeatherByCity one_slot always_london 2000 2000 2000
                                        "rome" after_paris)))
        !! cacheKey "paris").
Proof.
  split; [apply after_paris_reachable |].
  split; [vm_compute; reflexivity |].
  split; [vm_compute; reflexivity |].
  split; [reflexivity |].
  split; [vm_compute; reflexivity |].
  split; [vm_compute; reflexivity |].
  vm_compute. eauto.
Qed.

(** Against C4: with [stdTTL] 0, which [CACHE_TTL=0] sets, the entry
    stored at instant 1000 has no expiry, and a lookup of its key at
    instant 10^15, more than thirty thousand years later, is answered
    from the cache with the data of instant 1000; nothing is sent
    upstream. *)
Lemma C4_counterexample_entry_never_expires_with_stdTTL_0 :
  NodeCache.stdTTL no_expiry = 0
  /\ getWeatherByCity no_expiry always_london 1000 1000 1000 "london" initial
     = (Return (formatWeatherData 1000 london ++ [("fromCache", VBool false)]),
        after_london_no_expiry)
  /\ NodeCache.data (cache after_london_no_expiry) !! cacheKey "london"
     = Some {| NodeCache.t := 0; NodeCache.v := formatWeatherData 1000 london |}
  /\ exists st' : State,
       getWeatherByCity no_expiry always_london
                        1000000000000000 1000000000000000 1000000000000000
                        "london"
                        after_london_no_expiry
       = (Return (formatWeatherData 1000 london
                  ++ [("fromCache", VBool true)]), st')
       /\ requests st' = ["london"].
Proof.
  split; [reflexivity |].
  split; [vm_compute; reflexivity |].
  split; [vm_compute; reflexivity |].
  eexists. split; vm_compute; reflexivity.
Qed.


(** Against C7: " london" and "london" have the same key in the words
    of the specification, and different keys in the code; after a
    lookup of "london", a lookup of " london" at the same instant is a
    miss that goes upstream again. *)
Lemma C7_counterexample_white_space_is_kept_in_the_key :
  Spec.key " london" = Spec.key "london"
  /\ cacheKey " london" <> cacheKey "london"
  /\ NodeCache.live 1000 (cacheKey " london") (cache after_london) = None
  /\ requests (snd (getWeatherByCity default_options always_london
                                     1000 1000 1000 " london" after_london))
     = ["london"; " london"].
Proof.
  split; [reflexivity |].
  split; [discriminate |].
  split; vm_compute; reflexivity.
Qed.

End Departures.

(* ===================================================================== *)
(** ** The theorems at concrete inputs *)
(* ===================================================================== *)

Section Instances.
Import Js JsString WeatherService Sample.

(** "london" and "LONDON" differ only in letter case. *)
Lemma london_LONDON : same_modulo_case "london" "LONDON".
Proof.
  repeat (apply smc_cons; [right; right; split; reflexivity |]).
  apply smc_nil.
Defined.

(** C1 after one lookup of "london": a hit for "london" later on, and a
    hit for "LONDON" at once, with a provider that cannot be reached. *)
Lemma C1_witness :
  (exists r st',
      getWeatherByCity default_options unreachable_provider 2000 2000 2000
                       "london" after_london = (Return r, st')
      /\ get r "fromCache" = VBool true
      /\ (forall k, k <> "fromCache" ->
                    get r k = get (formatWeatherData 1000 london) k
                    /\ has r k = has (formatWeatherData 1000 london) k)
      /\ (has (formatWeatherData 1000 london) "fromCache" = false ->
          r = formatWeatherData 1000 london ++ [("fromCache", VBool true)])
      /\ requests st' = requests after_london)
  /\
  (exists d st2,
      always_london "london" = Fulfilled 200 (Some d)
      /\ formatWeatherData 1000 london ++ [("fromCache", VBool false)]
         = formatWeatherData 1000 d ++ [("fromCache", VBool false)]
      /\ getWeatherByCity default_options unreachable_provider 1000 1000 1000
                          "LONDON" after_london
         = (Return (formatWeatherData 1000 d ++ [("fromCache", VBool true)]),
            st2)
      /\ requests st2 = requests after_london).
Proof.
  split.
  - apply (proj1 (C1_live_entry_is_served_from_cache default_options)
             unreachable_provider 2000 2000 2000 "london" after_london
             (formatWeatherData 1000 london)).
    vm_compute. reflexivity.
  - apply (proj2 (C1_live_entry_is_served_from_cache default_options)
             always_london unreachable_provider 1000 1000 1000 1000 1000 1000
             "london" "LONDON" initial after_london
             (formatWeatherData 1000 london ++ [("fromCache", VBool false)])).
    + exact london_LONDON.
    + right. simpl. lia.
    + vm_compute. reflexivity.
    + vm_compute. reflexivity.
Defined.

(** C2 at the London payload and at 0.49999999999999994. *)
Lemma C2_witness :
  (nearest_integer
     (decimal false 154 (-1))
     (get_path (VObj (formatWeatherData 1000 london
                      ++ [("fromCache", VBool false)]))
               ["main"; "temp"])
   /\ nearest_integer
        (SFsub 53 1024 (decimal false 154 (-1)) (of_Z 2))
        (get_path (VObj (formatWeatherData 1000 london
                         ++ [("fromCache", VBool false)]))
                  ["main"; "temp_min"])
   /\ nearest_integer
        (SFadd 53 1024 (decimal false 154 (-1)) (of_Z 2))
        (get_path (VObj (formatWeatherData 1000 london
                         ++ [("fromCache", VBool false)]))
                  ["main"; "temp_max"]))
  /\
  nearest_integer
    (SFadd 53 1024 below_half (of_Z 2))
    (get_path (VObj (formatWeatherData 1000 (london_at (ONumber below_half))
                     ++ [("fromCache", VBool false)]))
              ["main"; "temp_max"]).
Proof.
  split.
  - destruct (proj1 C2_fresh_result_is_the_formatted_payload
                default_options always_london 1000 1000 1000 "london"
                initial after_london
                (formatWeatherData 1000 london
                 ++ [("fromCache", VBool false)])
                london
                (london_current (ONumber (decimal false 154 (-1)))))
      as (Ht & _).
    + vm_compute. reflexivity.
    + vm_compute. reflexivity.
    + reflexivity.
    + reflexivity.
    + apply (Ht (decimal false 154 (-1))). reflexivity.
  - destruct (proj1 C2_fresh_result_is_the_formatted_payload
                default_options (always (london_at (ONumber below_half)))
                1000 1000 1000 "london" initial
                (snd (getWeatherByCity
                        default_options
                        (always (london_at (ONumber below_half)))
                        1000 1000 1000 "london" initial))
                (formatWeatherData 1000 (london_at (ONumber below_half))
                 ++ [("fromCache", VBool false)])
                (london_at (ONumber below_half))
                (london_current (ONumber below_half)))
      as (Ht & _).
    + vm_compute. reflexivity.
    + vm_compute. reflexivity.
    + reflexivity.
    + reflexivity.
    + apply (Ht below_half). reflexivity.
Defined.

(** C3 at a store with one slot that holds "paris". *)
Lemma C3_witness :
  Reach.entries (cache after_paris) <= 1
  /\ NodeCache.data
       (cache (snd (getWeatherByCity one_slot always_london 2000 2000 2000
                                     "rome" after_paris)))
     = NodeCache.data (cache after_paris).
Proof.
  assert (H01 : 0 <= NodeCache.maxKeys one_slot) by (simpl; lia).
  destruct (C3_store_is_bounded_and_evicts_nothing one_slot H01)
    as (Hbound & _ & Hfull).
  split.
  - apply (Hbound (cache after_paris)). apply after_paris_reachable.
  - apply (Hfull always_london 2000 2000 2000 "rome" after_paris).
    + apply after_paris_reachable.
    + vm_compute. reflexivity.
    + vm_compute. reflexivity.
Defined.

(** C4 with the default 600 seconds: a lookup that stores at instant
    1000, a second one 600000 ms later and a third one 600001 ms
    later. *)
Lemma C4_witness :
  exists r2 st2 st3,
    getWeatherByCity default_options unreachable_provider 601000 601000 601000
                     "london" after_london = (Return r2, st2)
    /\ get r2 "fromCache" = VBool true
    /\ (forall k, k <> "fromCache" ->
                  get r2 k
                  = get (formatWeatherData 1000 london
                         ++ [("fromCache", VBool false)]) k)
    /\ requests st2 = requests after_london
    /\ getWeatherByCity default_options always_london 601001 601002 601002
                        "london" st2
       = (Return (formatWeatherData 601002 london
                  ++ [("fromCache", VBool false)]), st3)
    /\ requests st3 = requests st2 ++ ["london"].
Proof.
  assert (HT : 0 < NodeCache.stdTTL default_options) by (simpl; lia).
  destruct (proj1 (C4_entry_lives_for_stdTTL_seconds default_options) HT)
    as (_ & _ & _ & H).
  apply (H always_london unreachable_provider always_london
           1000 1000 1000 601000 601000 601000 601001 601002 601002 "london"
           initial after_london
           (formatWeatherData 1000 london ++ [("fromCache", VBool false)])
           london).
  - apply Reach.reach_empty.
  - lia.
  - vm_compute. reflexivity.
  - vm_compute. reflexivity.
  - simpl. lia.
  - simpl. lia.
  - reflexivity.
Defined.

(** C5 at a city of three spaces. *)
Lemma C5_witness :
  whitespace_only "   " = true
  /\ WeatherController.getWeatherByCity
       default_options always_london false 1000 1000 1000 1000
       (WeatherController.QString "   ") after_london
     = (WeatherController.Responded WeatherController.bad_request,
        after_london).
Proof.
  split; [reflexivity |].
  apply (proj1 (C5_blank_city_is_rejected_with_400
                  default_options always_london false 1000 1000 1000 1000
                  after_london)).
  reflexivity.
Defined.


(** C7 at "london", "LONDON" and " london". *)
Lemma C7_witness :
  cacheKey "london" = cacheKey "LONDON"
  /\ cacheKey " london" <> cacheKey "london".
Proof.
  split.
  - apply (proj1 (proj2 (proj2
             (C7_key_is_the_lowercased_city_untrimmed "london" "LONDON")))).
    exact london_LONDON.
  - apply (proj2 (proj2 (proj2
             (C7_key_is_the_lowercased_city_untrimmed " london" "london")))).
    simpl. lia.
Defined.

(** C9 at a provider that cannot be reached. *)
Lemma C9_witness :
  name (Error (failure_message network_error)) = "Error"
  /\ response_error_message (Error (failure_message network_error)) = None
  /\ String.prefix "Failed to fetch weather data: "
                   (message (Error (failure_message network_error))) = true
  /\ exists m, Error (failure_message network_error)
               = Error (String.append "Failed to fetch weather data: " m).
Proof.
  apply (C9_every_failure_is_a_plain_Error
           default_options unreachable_provider 1000 1000 1000 "london" initial
           (snd (getWeatherByCity default_options unreachable_provider
                                  1000 1000 1000 "london" initial))).
  vm_compute. reflexivity.
Defined.

(** C10 at a hit for "london". *)
Lemma C10_witness :
  exists st',
    getWeatherByCity default_options unreachable_provider 2000 2000 2000
                     "london" after_london
    = (Return (formatWeatherData 1000 london ++ [("fromCache", VBool true)]),
       st')
    /\ NodeCache.data (cache st') = NodeCache.data (cache after_london)
    /\ Reach.reachable default_options (cache st').
Proof.
  apply (proj1 (proj2 (C10_stored_objects_never_carry_fromCache
                         default_options))).
  - apply after_london_reachable.
  - vm_compute. reflexivity.
Defined.

End Instances.

(* ===================================================================== *)
(** ** Further properties of the service *)
(* ===================================================================== *)

Section ServiceExtras.
Import Js JsString WeatherService.
Variable opts : NodeCache.options.

(** X1.  A lookup sends at most one request upstream and never tries
    again: none when the key has a live entry, and otherwise exactly
    one, for the city as it was given, whether the provider answers
    well or not. *)
Theorem X1_lookup_sends_at_most_one_request
        (up : Upstream) (now date now' : Z) (city : string) (st : State) :
  requests (snd (getWeatherByCity opts up now date now' city st))
  = match NodeCache.live now (cacheKey city) (cache st) with
    | Some _ => requests st
    | None => requests st ++ [city]
    end.
Proof.
  unfold getWeatherByCity. rewrite <- get_fst.
  destruct (NodeCache.get now (cacheKey city) (cache st)) as [[o |] c1];
    simpl; [reflexivity |].
  destruct (up city) as [status [d |] | e]; simpl; try reflexivity.
  destruct (status =? 200); simpl; [| reflexivity].
  destruct (NodeCache.set opts now' (cacheKey city)
              (formatWeatherData date d) c1); reflexivity.
Qed.

Lemma get_other_key (now : Z) (key k : string) (c : NodeCache.cache obj) :
  k <> key ->
  NodeCache.data (snd (NodeCache.get now key c)) !! k
  = NodeCache.data c !! k.
Proof.
  intros Hk. unfold NodeCache.get, NodeCache._check, NodeCache.del.
  destruct (NodeCache.data c !! key) as [e |] eqn:E; [| reflexivity].
  destruct (NodeCache.expired now e); simpl; [| reflexivity].
  apply lookup_delete_ne. congruence.
Qed.

(** X2.  A lookup touches the entry of its own key only: the entry of
    every other key is after the lookup what it was before, whatever
    the outcome. *)
Theorem X2_lookup_leaves_other_entries_alone
        (up : Upstream) (now date now' : Z) (city : string) (st : State)
        (k : string) :
  k <> cacheKey city ->
  NodeCache.data (cache (snd (getWeatherByCity opts up now date now' city st)))
  !! k
  = NodeCache.data (cache st) !! k.
Proof.
  intros Hk.
  pose proof (get_other_key now (cacheKey city) k (cache st) Hk) as Hget.
  unfold getWeatherByCity.
  destruct (NodeCache.get now (cacheKey city) (cache st)) as [[o |] c1];
    simpl in *; [assumption |].
  destruct (up city) as [status [d |] | e]; simpl; try assumption.
  destruct (status =? 200); simpl; [| assumption].
  destruct (NodeCache.set opts now' (cacheKey city)
              (formatWeatherData date d) c1) as [e2 | c2] eqn:Hset; simpl;
    [assumption |].
  apply set_inr in Hset as (_ & Hdata & _). rewrite Hdata.
  rewrite lookup_insert_ne by congruence. assumption.
Qed.

Lemma all_stamped_del (key : string) (c : NodeCache.cache obj) :
  Stored.all_stamped opts c ->
  Stored.all_stamped opts (snd (NodeCache.del key c)).
Proof.
  intros H. unfold NodeCache.del.
  destruct (NodeCache.data c !! key) as [e0 |]; simpl; [| assumption].
  intros k e He. simpl in He. apply lookup_delete_Some in He as [_ He].
  eauto.
Qed.

Lemma all_stamped_check (now : Z) (key : string)
      (e : NodeCache.entry obj) (c : NodeCache.cache obj) :
  Stored.all_stamped opts c ->
  Stored.all_stamped opts (snd (NodeCache._check now key e c)).
Proof.
  intros H. unfold NodeCache._check.
  destruct (NodeCache.expired now e); simpl;
    [apply all_stamped_del |]; assumption.
Qed.

Lemma all_stamped_get (now : Z) (key : string) (c : NodeCache.cache obj) :
  Stored.all_stamped opts c ->
  Stored.all_stamped opts (snd (NodeCache.get now key c)).
Proof.
  intros H. unfold NodeCache.get.
  destruct (NodeCache.data c !! key) as [e |]; [| exact H].
  pose proof (all_stamped_check now key e c H) as H'.
  destruct (NodeCache._check now key e c) as [[] c']; exact H'.
Qed.

Lemma all_stamped_set (date now : Z) (key : string) (d : RawWeather)
      (c c' : NodeCache.cache obj) :
  Stored.all_stamped opts c ->
  NodeCache.set opts now key (formatWeatherData date d) c = inr c' ->
  Stored.all_stamped opts c'.
Proof.
  intros H Hset. apply set_inr in Hset as (_ & Hdata & _).
  intros k e He. rewrite Hdata in He.
  destruct (decide (key = k)) as [-> | Hne].
  - rewrite lookup_insert_eq in He. injection He as <-.
    exists date, now, d. reflexivity.
  - rewrite lookup_insert_ne in He by assumption. eauto.
Qed.

Lemma all_stamped_checkData (now : Z) (c : NodeCache.cache obj) :
  Stored.all_stamped opts c ->
  Stored.all_stamped opts (NodeCache._checkData now c).
Proof.
  unfold NodeCache._checkData.
  generalize (map_to_list (NodeCache.data c)) as l. intros l. revert c.
  induction l as [| [k e] l IH]; intros c H; simpl; [assumption |].
  apply IH. apply all_stamped_check. assumption.
Qed.

Lemma reachable_all_stamped (c : NodeCache.cache obj) :
  Reach.reachable opts c -> Stored.all_stamped opts c.
Proof.
  induction 1 as [| o c _ IH].
  - intros k e He. simpl in He. rewrite lookup_empty in He. discriminate.
  - destruct o as [now key | date now key d | now]; simpl.
    + apply all_stamped_get. assumption.
    + destruct (NodeCache.set opts now key (formatWeatherData date d) c)
        as [e | c'] eqn:E; [assumption |].
      eapply all_stamped_set; eassumption.
    + apply all_stamped_checkData. assumption.
Qed.

(** X3.  What a lookup serves from the cache is the payload of an
    entry of the store: one that [formatWeatherData] built at some
    instant, the instant its [timestamp] field shows, with
    [fromCache: true] appended.  With a positive time to live the entry
    was written (at an instant that is not negative) at most [stdTTL]
    seconds before the lookup. *)
Theorem X3_cached_answer_is_a_stored_formatted_payload
        (up : Upstream) (now date now' : Z) (city : string)
        (st st' : State) (r : obj) :
  Reach.reachable opts (cache st) ->
  getWeatherByCity opts up now date now' city st = (Return r, st') ->
  get r "fromCache" = VBool true ->
  exists (formatted written : Z) (d : RawWeather),
    NodeCache.data (cache st) !! cacheKey city
    = Some (NodeCache._wrap opts written (formatWeatherData formatted d))
    /\ r = formatWeatherData formatted d ++ [("fromCache", VBool true)]
    /\ get r "timestamp" = VIso formatted
    /\ (0 < NodeCache.stdTTL opts -> 0 <= written ->
        now <= written + NodeCache.stdTTL opts * 1000).
Proof.
  intros Hst H Hflag.
  destruct (NodeCache.live now (cacheKey city) (cache st)) as [o |] eqn:Hlive.
  - rewrite (lookup_hit opts up now date now' city st o Hlive) in H.
    injection H as <- _.
    unfold NodeCache.live in Hlive.
    destruct (NodeCache.data (cache st) !! cacheKey city) as [e |] eqn:He;
      [| discriminate].
    destruct (NodeCache.expired now e) eqn:Hx; [discriminate |].
    injection Hlive as <-.
    destruct (reachable_all_stamped _ Hst _ _ He) as (t & w & d & ->).
    exists t, w, d. simpl NodeCache.v.
    split; [reflexivity |]. split; [reflexivity |].
    split; [reflexivity |].
    intros HT Ht. unfold NodeCache.expired, NodeCache._wrap in Hx.
    simpl in Hx.
    destruct (NodeCache.stdTTL opts =? 0) eqn:E0; [lia |].
    apply andb_false_iff in Hx as [Hx | Hx].
    + apply negb_false_iff, Z.eqb_eq in Hx. lia.
    + apply Z.ltb_ge in Hx. lia.
  - exfalso. unfold getWeatherByCity in H. rewrite <- get_fst in Hlive.
    destruct (NodeCache.get now (cacheKey city) (cache st)) as [x c1].
    simpl in Hlive. subst x.
    destruct (up city) as [status [d |] | e]; simpl in H; try discriminate.
    destruct (status =? 200); simpl in H; [| discriminate].
    destruct (NodeCache.set opts now' (cacheKey city)
                (formatWeatherData date d) c1); simpl in H; [discriminate |].
    injection H as <- _. discriminate Hflag.
Qed.

End ServiceExtras.

(* ===================================================================== *)
(** ** Further properties of the handlers and the error middleware *)
(* ===================================================================== *)

Section HandlerExtras.
Import Js JsString WeatherService.

(** What the service returns carries a boolean [fromCache], true
    exactly when the key had a live entry. *)
Lemma lookup_flag (opts : NodeCache.options) (up : Upstream)
      (now date now' : Z) (city : string) (st st' : State) (w : obj) :
  getWeatherByCity opts up now date now' city st = (Return w, st') ->
  get w "fromCache"
  = VBool (bool_decide
             (is_Some (NodeCache.live now (cacheKey city) (cache st)))).
Proof.
  unfold getWeatherByCity. rewrite <- get_fst.
  destruct (NodeCache.get now (cacheKey city) (cache st)) as [[o |] c1];
    simpl.
  - intros [= <- _]. unfold spread_with. rewrite get_assign_eq.
    reflexivity.
  - destruct (up city) as [status [d |] | e]; simpl; try discriminate.
    destruct (status =? 200); simpl; [| discriminate].
    destruct (NodeCache.set opts now' (cacheKey city)
                (formatWeatherData date d) c1); simpl; [discriminate |].
    intros [= <- _]. reflexivity.
Qed.

(** X4.  For an accepted city the service answers, the handler sends
    status 200 with the service's object as [data], keeps the state the
    service left, and reports in [meta.cached] the object's own
    [fromCache]: true exactly when the answer came from the cache. *)
Theorem X4_success_response_mirrors_the_service
        (opts : NodeCache.options) (up : Upstream) (development : bool)
        (now date now' sent : Z) (q : WeatherController.QueryValue) (s : string)
        (st st' : State) (w : obj) :
  WeatherController.accepted q = Some s ->
  getWeatherByCity opts up now date now' s st = (Return w, st') ->
  exists r,
    WeatherController.getWeatherByCity
      opts up development now date now' sent q st
    = (WeatherController.Responded r, st')
    /\ WeatherController.status r = 200
    /\ get (WeatherController.body r) "status" = VStr "success"
    /\ get (WeatherController.body r) "data" = VObj w
    /\ get_path (VObj (WeatherController.body r)) ["meta"; "cached"]
       = get w "fromCache"
    /\ get_path (VObj (WeatherController.body r)) ["meta"; "cached"]
       = VBool (bool_decide
                  (is_Some (NodeCache.live now (cacheKey s) (cache st)))).
Proof.
  intros Hq H. pose proof (lookup_flag _ _ _ _ _ _ _ _ _ H) as Hflag.
  unfold WeatherController.getWeatherByCity. rewrite Hq, H.
  eexists. split; [reflexivity |]. simpl. rewrite Hflag.
  repeat split; destruct (bool_decide _); reflexivity.
Qed.

(** X5.  The test of line 32 lets a city through exactly when it is a
    string with at least one character that is not white space, and
    hands it on as it came, untrimmed. *)
Theorem X5_accepted_iff_not_blank
        (q : WeatherController.QueryValue) (s : string) :
  WeatherController.accepted q = Some s
  <-> q = WeatherController.QString s /\ whitespace_only s = false.
Proof.
  split.
  - destruct q as [| s0 |]; try discriminate.
    intros H.
    assert (Hs : s0 = s).
    { unfold WeatherController.accepted in H.
      destruct (isEmpty s0 || isEmpty (trim s0)); congruence. }
    subst s0. split; [reflexivity |].
    destruct (whitespace_only s) eqn:E; [| reflexivity].
    apply accepted_None_iff in E. congruence.
  - intros [-> Hs].
    destruct (WeatherController.accepted (WeatherController.QString s))
      as [s1 |] eqn:E.
    + unfold WeatherController.accepted in E.
      destruct (isEmpty s || isEmpty (trim s)); congruence.
    + apply accepted_None_iff in E. congruence.
Qed.

(** X6.  The city handler answers with status 400 or 200 and with no
    other; when the service throws, for whatever reason, no response is
    sent at all: the handler ends with the [ReferenceError] of its
    catch block, and the state is the one the service left (the
    request upstream was made). *)
Theorem X6_city_handler_never_answers_an_upstream_failure
        (opts : NodeCache.options) (up : Upstream) (development : bool)
        (now date now' sent : Z) (q : WeatherController.QueryValue)
        (st : State) :
  (forall r st',
      WeatherController.getWeatherByCity
        opts up development now date now' sent q st
      = (WeatherController.Responded r, st') ->
      WeatherController.status r = 400 \/ WeatherController.status r = 200)
  /\
  (forall s e st',
      WeatherController.accepted q = Some s ->
      getWeatherByCity opts up now date now' s st = (Throw e, st') ->
      WeatherController.getWeatherByCity
        opts up development now date now' sent q st
      = (WeatherController.Unhandled (ReferenceError "city"), st')
      /\ requests st' = requests st ++ [s]).
Proof.
  split.
  - intros r st' H. eapply controller_statuses. exact H.
  - intros s e st' Hq H. split.
    + eapply controller_service_failure; eassumption.
    + apply lookup_miss_fail in H as (_ & _ & Hreq & _). exact Hreq.
Qed.

(** X7.  The coordinates handler answers 400 when [lat] or [lon] is
    absent or empty, and in every other case sends nothing: the service
    has no [getWeatherByCoords], the call throws, and the catch block
    ends with a [ReferenceError].  It never sends weather data. *)
Theorem X7_coordinates_handler_never_succeeds
        (development : bool) (now : Z)
        (lat lon : WeatherController.QueryValue) :
  (WeatherControllerCoords.falsy lat || WeatherControllerCoords.falsy lon
   = true ->
   WeatherControllerCoords.getWeatherByCoords development now lat lon
   = WeatherController.Responded WeatherControllerCoords.bad_request)
  /\
  (WeatherControllerCoords.falsy lat || WeatherControllerCoords.falsy lon
   = false ->
   WeatherControllerCoords.getWeatherByCoords development now lat lon
   = WeatherController.Unhandled (ReferenceError "lat"))
  /\
  (forall r,
      WeatherControllerCoords.getWeatherByCoords development now lat lon
      = WeatherController.Responded r ->
      WeatherController.status r = 400).
Proof.
  unfold WeatherControllerCoords.getWeatherByCoords.
  destruct (WeatherControllerCoords.falsy lat
            || WeatherControllerCoords.falsy lon); simpl.
  - split; [reflexivity |]. split; [discriminate |].
    intros r [= <-]. reflexivity.
  - split; [discriminate |]. split; [reflexivity |]. discriminate.
Qed.

(** X8.  Whatever the error, the middleware's response has a status
    that is not 0 (the error's own [statusCode], and 500 when it has
    none or has 0), a body with [status] "error" and a message that is
    not empty, a [stack] in development and never outside it, and
    [errors] exactly for a [ValidationError]. *)
Theorem X8_error_response_shape
        (development : bool) (err : ErrorHandler.Err) :
  let r := ErrorHandler.errorHandler development err in
  WeatherController.status r <> 0
  /\ (forall n, ErrorHandler.err_statusCode err = Some n -> n <> 0 ->
                WeatherController.status r = n)
  /\ (ErrorHandler.err_statusCode err = None ->
      WeatherController.status r = 500)
  /\ get (WeatherController.body r) "status" = VStr "error"
  /\ (exists m, get (WeatherController.body r) "message" = VStr m
                /\ m <> EmptyString)
  /\ has (WeatherController.body r) "stack" = development
  /\ has (WeatherController.body r) "errors"
     = String.eqb (ErrorHandler.err_name err) "ValidationError".
Proof.
  destruct err as [nm msg code stack errors].
  unfold ErrorHandler.errorHandler. simpl.
  split.
  { destruct code as [n |]; simpl; [| discriminate].
    destruct (n =? 0) eqn:E; [discriminate |].
    apply Z.eqb_neq. assumption. }
  split.
  { intros n [= ->] Hn. simpl. apply Z.eqb_neq in Hn. rewrite Hn.
    reflexivity. }
  split.
  { intros ->. reflexivity. }
  destruct (String.eqb nm "ValidationError"), development; simpl;
    (split; [reflexivity |]);
    (split; [| split; reflexivity]).
  - exists "Validation Error". split; [reflexivity | discriminate].
  - exists "Validation Error". split; [reflexivity | discriminate].
  - destruct msg; simpl; eexists; (split; [reflexivity | discriminate]).
  - destruct msg; simpl; eexists; (split; [reflexivity | discriminate]).
Qed.

(** X9.  A request that no route takes, handed by [notFound] to the
    middleware, is answered with status 404 and the message
    "Not Found - " followed by the requested URL; outside development
    the body is just [status] and [message]. *)
Theorem X9_unknown_route_is_answered_404
        (development : bool) (originalUrl : string) (stack : value) :
  let r := ErrorHandler.errorHandler development
             (ErrorHandler.notFound originalUrl stack) in
  WeatherController.status r = 404
  /\ get (WeatherController.body r) "status" = VStr "error"
  /\ get (WeatherController.body r) "message"
     = VStr (String.append "Not Found - " originalUrl)
  /\ (development = false ->
      WeatherController.body r
      = [ ("status", VStr "error");
          ("message", VStr (String.append "Not Found - " originalUrl)) ]).
Proof.
  unfold ErrorHandler.errorHandler, ErrorHandler.notFound. simpl.
  repeat split.
  intros ->. reflexivity.
Qed.

End HandlerExtras.

(* ===================================================================== *)
(** ** Properties of the frontend helpers *)
(* ===================================================================== *)

Section AppExtras.
Import Js JsString App.

Lemma split_nonempty (sep : ascii) (s : string) : split sep s <> [].
Proof.
  destruct s as [| c s]; simpl; [discriminate |].
  destruct (Ascii.eqb c sep); [discriminate |].
  destruct (split sep s); discriminate.
Qed.

Lemma split_no_sep (sep : ascii) (s : string) :
  occurs sep s = false -> split sep s = [s].
Proof.
  induction s as [| c s IH]; simpl; [reflexivity |].
  intros H. apply orb_false_elim in H as [Hc Hs].
  rewrite Hc, (IH Hs). reflexivity.
Qed.

(** Splitting distributes over a separator in the middle. *)
Lemma split_app (sep : ascii) (a b : string) :
  split sep (String.append a (String sep b)) = split sep a ++ split sep b.
Proof.
  induction a as [| c a IH]; simpl.
  - rewrite Ascii.eqb_refl. reflexivity.
  - destruct (Ascii.eqb c sep); simpl; rewrite IH; [reflexivity |].
    pose proof (split_nonempty sep a) as Hne.
    destruct (split sep a) as [| h t]; [contradiction | reflexivity].
Qed.

Lemma occurs_app (c : ascii) (a b : string) :
  occurs c (String.append a b) = occurs c a || occurs c b.
Proof.
  induction a as [| c' a IH]; simpl; [reflexivity |].
  rewrite IH. apply orb_assoc.
Qed.

Lemma isEmpty_app_cons (a : string) (c : ascii) (b : string) :
  isEmpty (String.append a (String c b)) = false.
Proof. destruct a; reflexivity. Qed.

(** The hours of a day as a time string writes them, with one digit,
    two digits, or a leading zero. *)
Lemma hour_digits (h : Z) (hh : string) :
  0 <= h < 24 ->
  hh = show h \/ (h < 10 /\ hh = String.append "0" (show h)) ->
  occurs " " hh = false /\ occurs ":" hh = false
  /\ parseInt hh = of_Z h
  /\ rem_12_or_12 (of_Z h) = (if h mod 12 =? 0 then 12 else h mod 12)
  /\ ge_12 (of_Z h) = negb (h <? 12).
Proof.
  intros Hh Hhh.
  assert (Hcases : h = 0 \/ h = 1 \/ h = 2 \/ h = 3 \/ h = 4 \/ h = 5
                   \/ h = 6 \/ h = 7 \/ h = 8 \/ h = 9 \/ h = 10 \/ h = 11
                   \/ h = 12 \/ h = 13 \/ h = 14 \/ h = 15 \/ h = 16
                   \/ h = 17 \/ h = 18 \/ h = 19 \/ h = 20 \/ h = 21
                   \/ h = 22 \/ h = 23) by lia.
  repeat (destruct Hcases as [-> | Hcases]); try subst h;
    (destruct Hhh as [-> | [Hlt ->]];
     [repeat split; reflexivity
     | first [ lia | repeat split; reflexivity ] ]).
Qed.

(** X11.  For a time string "<date> <hours>:<minutes>" with hours from
    0 to 23 (written with or without a leading zero), [formatTime]
    gives the time on the twelve-hour clock: the hour modulo 12, with
    12 for 0, the minutes as they are, and "AM" before noon, "PM" from
    noon on. *)
Theorem X11_formatTime_twelve_hour_clock
        (date hh mm : string) (h : Z) :
  occurs " " date = false ->
  occurs " " mm = false ->
  occurs ":" mm = false ->
  0 <= h < 24 ->
  hh = show h \/ (h < 10 /\ hh = String.append "0" (show h)) ->
  formatTime
    (Some (String.append date
             (String " " (String.append hh (String ":" mm)))))
  = Return (String.append (show (if h mod 12 =? 0 then 12 else h mod 12))
              (String.append ":"
                 (String.append mm
                    (String.append " " (if h <? 12 then "AM" else "PM"))))).
Proof.
  intros Hdate Hmm1 Hmm2 Hh Hhh.
  destruct (hour_digits h hh Hh Hhh) as (Hs & Hc & Hparse & Hrem & Hge).
  unfold formatTime. rewrite isEmpty_app_cons.
  rewrite split_app, (split_no_sep " " date Hdate). simpl app.
  rewrite (split_no_sep " " (String.append hh (String ":" mm))).
  2:{ rewrite occurs_app. simpl. rewrite Hs, Hmm1. reflexivity. }
  simpl lookup. cbv beta iota.
  rewrite split_app, (split_no_sep ":" hh Hc), (split_no_sep ":" mm Hmm2).
  simpl app. simpl hd. simpl lookup. rewrite Hparse, Hrem, Hge.
  simpl default. destruct (h <? 12); reflexivity.
Qed.

(** X12.  [formatTime] gives the empty string for a time string that is
    missing or empty, and throws a [TypeError] for any other string
    without a space in it, such as a bare "12:30". *)
Theorem X12_formatTime_without_a_date_part :
  formatTime None = Return EmptyString
  /\ formatTime (Some EmptyString) = Return EmptyString
  /\ (forall s : string,
         s <> EmptyString ->
         occurs " " s = false ->
         formatTime (Some s)
         = Throw (TypeError "Cannot read properties of undefined (reading 'split')")).
Proof.
  split; [reflexivity |]. split; [reflexivity |].
  intros s Hne Hs. unfold formatTime.
  destruct s as [| c s]; [contradiction |]. simpl isEmpty.
  rewrite (split_no_sep " " _ Hs). reflexivity.
Qed.

Lemma all_digits_occurs (c : ascii) (s : string) :
  isDigit c = false -> all_digits s = true -> occurs c s = false.
Proof.
  intros Hc. induction s as [| c' s IH]; simpl; [reflexivity |].
  intros H. apply andb_prop in H as [Hd Hs]. rewrite (IH Hs).
  destruct (Ascii.eqb_spec c' c) as [-> | _]; [congruence | reflexivity].
Qed.

Lemma eqb_digits (k s : string) :
  all_digits k = false -> all_digits s = true -> String.eqb k s = false.
Proof.
  intros Hk Hs. destruct (String.eqb_spec k s) as [-> | _];
    [congruence | reflexivity].
Qed.

Lemma own_digits (table : list (string * string)) (s : string) :
  forallb (fun kv => negb (all_digits kv.1)) table = true ->
  all_digits s = true ->
  own table s = None.
Proof.
  intros Ht Hs. induction table as [| [k v] table IH]; simpl; [reflexivity |].
  simpl in Ht. apply andb_prop in Ht as [Hk Ht].
  apply negb_true_iff in Hk. rewrite (eqb_digits k s Hk Hs). auto.
Qed.

Lemma inherited_digits (names : list string) (s : string) :
  forallb (fun k => negb (all_digits k)) names = true ->
  all_digits s = true ->
  existsb (String.eqb s) names = false.
Proof.
  intros Ht Hs. induction names as [| k names IH]; simpl; [reflexivity |].
  simpl in Ht. apply andb_prop in Ht as [Hk Ht].
  apply negb_true_iff in Hk. rewrite String.eqb_sym, (eqb_digits k s Hk Hs).
  auto.
Qed.

(** The icon code of a URL: what stands between its last slash and the
    first dot after it. *)
Lemma icon_code (dir stem ext : string) :
  occurs "/" stem = false ->
  occurs "." stem = false ->
  occurs "/" ext = false ->
  hd EmptyString
     (split "."
        (List.last
           (split "/"
              (String.append dir
                 (String "/" (String.append stem (String "." ext)))))
           EmptyString))
  = stem.
Proof.
  intros Hs1 Hs2 He.
  rewrite split_app.
  rewrite (split_no_sep "/" (String.append stem (String "." ext))).
  2:{ rewrite occurs_app. simpl. rewrite Hs1, He. reflexivity. }
  rewrite last_last, split_app, (split_no_sep "." stem Hs2). reflexivity.
Qed.

(** X13.  [getWeatherEmoji] gives the thermometer for an icon that is
    missing or empty, and for every icon URL whose file name is a
    number, as in ".../day/116.png": the table knows only codes that
    end in "d" or "n".  For a URL whose file name is one of the table's
    codes it gives that code's emoji. *)
Theorem X13_getWeatherEmoji_table_and_fallback :
  getWeatherEmoji None = Text "🌡️"
  /\ getWeatherEmoji (Some EmptyString) = Text "🌡️"
  /\ (forall dir stem ext : string,
         all_digits stem = true ->
         occurs "/" ext = false ->
         getWeatherEmoji
           (Some (String.append dir
                    (String "/" (String.append stem (String "." ext)))))
         = Text "🌡️")
  /\ (forall dir code emoji ext : string,
         In (code, emoji) weatherIcons ->
         occurs "/" ext = false ->
         getWeatherEmoji
           (Some (String.append dir
                    (String "/" (String.append code (String "." ext)))))
         = Text emoji).
Proof.
  split; [reflexivity |]. split; [reflexivity |]. split.
  - intros dir stem ext Hd He. unfold getWeatherEmoji.
    rewrite isEmpty_app_cons.
    rewrite (icon_code dir stem ext); try assumption;
      try (apply all_digits_occurs; [reflexivity | assumption]).
    rewrite (own_digits weatherIcons stem eq_refl Hd).
    rewrite (inherited_digits inherited stem eq_refl Hd). reflexivity.
  - intros dir code emoji ext Hin He. unfold getWeatherEmoji.
    rewrite isEmpty_app_cons.
    assert (Hcode : occurs "/" code = false /\ occurs "." code = false
                    /\ own weatherIcons code = Some emoji
                    /\ isEmpty emoji = false).
    { unfold weatherIcons in Hin. simpl in Hin.
      repeat (destruct Hin as [[= <- <-] | Hin];
              [repeat split; reflexivity |]).
      contradiction. }
    destruct Hcode as (H1 & H2 & Hown & Hemoji).
    rewrite (icon_code dir code ext H1 H2 He), Hown, Hemoji. reflexivity.
Qed.

End AppExtras.

(* ===================================================================== *)
(** ** Properties of the frontend's state changes *)
(* ===================================================================== *)

Section AppStateExtras.
Import Js JsString App.

Lemma or_else_nonempty (a : option string) (b : string) :
  b <> EmptyString -> or_else a b <> EmptyString.
Proof.
  intros Hb. destruct a as [[| c s] |]; simpl; [assumption | discriminate |
                                                 assumption].
Qed.

(** How a fetch for a city that is not empty ends. *)
Lemma fetchWeather_outcome (cityName : string) (fetched : Fetched) (s : State) :
  cityName <> EmptyString ->
  loading (fetchWeather cityName fetched s) = false
  /\ suggestions (fetchWeather cityName fetched s) = suggestions s
  /\ showSuggestions (fetchWeather cityName fetched s) = showSuggestions s
  /\ ((error_text (fetchWeather cityName fetched s) = EmptyString
       /\ city (fetchWeather cityName fetched s) = EmptyString
       /\ exists d w, fetched = Json d /\ error d = None
                      /\ weatherData d = Some w
                      /\ weather (fetchWeather cityName fetched s) = Some w)
      \/ (error_text (fetchWeather cityName fetched s) <> EmptyString
          /\ weather (fetchWeather cityName fetched s) = weather s
          /\ city (fetchWeather cityName fetched s) = city s)).
Proof.
  intros Hne. unfold fetchWeather.
  destruct cityName as [| c cityName]; [contradiction |]. simpl isEmpty.
  cbv beta iota.
  destruct fetched as [d |].
  - destruct (error d) as [m |] eqn:Herr.
    + repeat split. right. repeat split.
      simpl. apply or_else_nonempty. discriminate.
    + destruct (weatherData d) as [w |] eqn:Hw.
      * repeat split. left. repeat split. exists d, w. auto.
      * repeat split. right. repeat split. discriminate.
  - repeat split. right. repeat split. discriminate.
Qed.

(** X14.  A fetch for the empty city does nothing.  Any other fetch
    ends with [loading] off and the suggestions as they were, and in
    one of two ways: with the new weather shown, no error and the input
    cleared, which needs a body that has no [error] and has [location],
    [current] and [condition]; or with an error message that is not
    empty, the weather shown before still in place and the input
    untouched. *)
Theorem X14_fetchWeather_shows_weather_or_an_error
        (cityName : string) (fetched : Fetched) (s : State) :
  fetchWeather EmptyString fetched s = s
  /\ (cityName <> EmptyString ->
      loading (fetchWeather cityName fetched s) = false
      /\ suggestions (fetchWeather cityName fetched s) = suggestions s
      /\ showSuggestions (fetchWeather cityName fetched s)
         = showSuggestions s
      /\ ((error_text (fetchWeather cityName fetched s) = EmptyString
           /\ city (fetchWeather cityName fetched s) = EmptyString
           /\ exists d w, fetched = Json d /\ error d = None
                          /\ weatherData d = Some w
                          /\ weather (fetchWeather cityName fetched s)
                             = Some w)
          \/ (error_text (fetchWeather cityName fetched s) <> EmptyString
              /\ weather (fetchWeather cityName fetched s) = weather s
              /\ city (fetchWeather cityName fetched s) = city s))).
Proof.
  split; [reflexivity |]. apply fetchWeather_outcome.
Qed.

(** X15.  A search with a city that is empty or white space only
    changes nothing and fetches nothing.  Any other search fetches for
    the city as it was typed, white space around it included, and ends
    with the suggestions hidden and [loading] off. *)
Theorem X15_handleSearch_ignores_a_blank_city
        (fetched : Fetched) (s : State) :
  (whitespace_only (city s) = true -> handleSearch fetched s = s)
  /\ (whitespace_only (city s) = false ->
      handleSearch fetched s
      = setShowSuggestions false (fetchWeather (city s) fetched s)
      /\ showSuggestions (handleSearch fetched s) = false
      /\ loading (handleSearch fetched s) = false
      /\ weather (handleSearch fetched s)
         = weather (fetchWeather (city s) fetched s)
      /\ error_text (handleSearch fetched s)
         = error_text (fetchWeather (city s) fetched s)).
Proof.
  unfold handleSearch. split.
  - intros H. rewrite (trim_whitespace_only _ H). reflexivity.
  - intros H.
    destruct (isEmpty (trim (city s))) eqn:E.
    + apply isEmpty_true, trim_empty_whitespace_only in E. congruence.
    + assert (Hne : city s <> EmptyString)
        by (intros Hc; rewrite Hc in H; discriminate).
      destruct (fetchWeather_outcome (city s) fetched s Hne) as (Hl & _).
      repeat split. simpl. exact Hl.
Qed.

End AppStateExtras.

(* ===================================================================== *)
(** ** The further properties at concrete inputs *)
(* ===================================================================== *)

Section ExtraInstances.
Import Js JsString WeatherService Sample.

(** X2 at a lookup of "rome" after one of "london": the entry of
    "london" stays. *)
Lemma X2_witness :
  NodeCache.data
    (cache (snd (getWeatherByCity default_options always_london 2000 2000 2000
                                  "rome" after_london)))
  !! cacheKey "london"
  = NodeCache.data (cache after_london) !! cacheKey "london".
Proof.
  apply (X2_lookup_leaves_other_entries_alone
           default_options always_london 2000 2000 2000 "rome" after_london).
  discriminate.
Defined.

(** X3 at a hit for "london" 1000 ms after the entry was written. *)
Lemma X3_witness :
  exists (formatted written : Z) (d : RawWeather),
    NodeCache.data (cache after_london) !! cacheKey "london"
    = Some (NodeCache._wrap default_options written
                            (formatWeatherData formatted d))
    /\ formatWeatherData 1000 london ++ [("fromCache", VBool true)]
       = formatWeatherData formatted d ++ [("fromCache", VBool true)]
    /\ get (formatWeatherData 1000 london ++ [("fromCache", VBool true)])
           "timestamp" = VIso formatted
    /\ (0 < NodeCache.stdTTL default_options -> 0 <= written ->
        2000 <= written + NodeCache.stdTTL default_options * 1000).
Proof.
  apply (X3_cached_answer_is_a_stored_formatted_payload
           default_options unreachable_provider 2000 2000 2000 "london"
           after_london
           (snd (getWeatherByCity default_options unreachable_provider
                                  2000 2000 2000 "london" after_london))).
  - apply after_london_reachable.
  - vm_compute. reflexivity.
  - vm_compute. reflexivity.
Defined.

(** X4 at a request for "London" answered from the cache. *)
Lemma X4_witness :
  exists r,
    WeatherController.getWeatherByCity
      default_options unreachable_provider false 2000 2000 2000 2000
      (WeatherController.QString "London") after_london
    = (WeatherController.Responded r,
       snd (getWeatherByCity default_options unreachable_provider
                             2000 2000 2000 "London" after_london))
    /\ WeatherController.status r = 200
    /\ get_path (VObj (WeatherController.body r)) ["meta"; "cached"]
       = VBool true.
Proof.
  destruct (X4_success_response_mirrors_the_service
              default_options unreachable_provider false 2000 2000 2000 2000
              (WeatherController.QString "London") "London" after_london
              (snd (getWeatherByCity default_options unreachable_provider
                                     2000 2000 2000 "London" after_london))
              (spread_with (formatWeatherData 1000 london)
                           "fromCache" (VBool true)))
    as (r & H1 & H2 & _ & _ & H3 & _).
  - reflexivity.
  - vm_compute. reflexivity.
  - exists r. split; [exact H1 |]. split; [exact H2 |]. exact H3.
Defined.

(** X5 at " London ": accepted, with its spaces. *)
Lemma X5_witness :
  WeatherController.accepted (WeatherController.QString " London ")
  = Some " London ".
Proof.
  apply (proj2 (X5_accepted_iff_not_blank
                  (WeatherController.QString " London ") " London ")).
  split; reflexivity.
Defined.

(** X6 at a provider that cannot be reached. *)
Lemma X6_witness :
  WeatherController.getWeatherByCity
    default_options unreachable_provider true 1000 1000 1000 1000
    (WeatherController.QString "London") initial
  = (WeatherController.Unhandled (ReferenceError "city"),
     snd (getWeatherByCity default_options unreachable_provider
                           1000 1000 1000 "London" initial))
  /\ requests (snd (getWeatherByCity default_options unreachable_provider
                                     1000 1000 1000 "London" initial))
     = requests initial ++ ["London"].
Proof.
  apply (proj2 (X6_city_handler_never_answers_an_upstream_failure
                  default_options unreachable_provider true 1000 1000 1000 1000
                  (WeatherController.QString "London") initial)
           "London" (Error (failure_message network_error))).
  - reflexivity.
  - vm_compute. reflexivity.
Defined.

(** X7 at a request with both coordinates and at one without [lon]. *)
Lemma X7_witness :
  WeatherControllerCoords.getWeatherByCoords
    false 1000 (WeatherController.QString "37.7749")
    (WeatherController.QString "-122.4194")
  = WeatherController.Unhandled (ReferenceError "lat")
  /\ WeatherControllerCoords.getWeatherByCoords
       false 1000 (WeatherController.QString "37.7749")
       WeatherController.QAbsent
     = WeatherController.Responded WeatherControllerCoords.bad_request.
Proof.
  split.
  - apply (proj1 (proj2 (X7_coordinates_handler_never_succeeds
                           false 1000 (WeatherController.QString "37.7749")
                           (WeatherController.QString "-122.4194")))).
    reflexivity.
  - apply (proj1 (X7_coordinates_handler_never_succeeds
                    false 1000 (WeatherController.QString "37.7749")
                    WeatherController.QAbsent)).
    reflexivity.
Defined.

(** X8 at an error with status code 503. *)
Lemma X8_witness :
  WeatherController.status
    (ErrorHandler.errorHandler false
       (ErrorHandler.mkErr "Error" "Service Unavailable" (Some 503)
                           (VStr "Error: Service Unavailable") VUndef))
  = 503.
Proof.
  apply (proj1 (proj2 (X8_error_response_shape false
           (ErrorHandler.mkErr "Error" "Service Unavailable" (Some 503)
                               (VStr "Error: Service Unavailable") VUndef)))
           503).
  - reflexivity.
  - discriminate.
Defined.

(** X9 at a request for /api/weather/forecast in production. *)
Lemma X9_witness :
  WeatherController.body
    (ErrorHandler.errorHandler false
       (ErrorHandler.notFound "/api/weather/forecast" (VStr "Error")))
  = [ ("status", VStr "error");
      ("message", VStr "Not Found - /api/weather/forecast") ].
Proof.
  apply (proj2 (proj2 (proj2 (X9_unknown_route_is_answered_404
           false "/api/weather/forecast" (VStr "Error"))))).
  reflexivity.
Defined.

(** X11 at "2024-01-01 00:05", "2024-01-01 9:30" and
    "2024-01-01 13:45". *)
Lemma X11_witness :
  App.formatTime (Some "2024-01-01 00:05") = Return "12:05 AM"
  /\ App.formatTime (Some "2024-01-01 9:30") = Return "9:30 AM"
  /\ App.formatTime (Some "2024-01-01 13:45") = Return "1:45 PM".
Proof.
  split; [| split].
  - apply (X11_formatTime_twelve_hour_clock "2024-01-01" "00" "05" 0);
      try reflexivity; [lia | right; split; [lia | reflexivity]].
  - apply (X11_formatTime_twelve_hour_clock "2024-01-01" "9" "30" 9);
      try reflexivity; [lia | left; reflexivity].
  - apply (X11_formatTime_twelve_hour_clock "2024-01-01" "13" "45" 13);
      try reflexivity; [lia | left; reflexivity].
Defined.

(** X12 at "12:30". *)
Lemma X12_witness :
  App.formatTime (Some "12:30")
  = Throw (App.TypeError "Cannot read properties of undefined (reading 'split')").
Proof.
  apply (proj2 (proj2 X12_formatTime_without_a_date_part) "12:30").
  - discriminate.
  - reflexivity.
Defined.

(** X13 at an icon of the provider and at a code of the table. *)
Lemma X13_witness :
  App.getWeatherEmoji (Some "//cdn.weatherapi.com/weather/64x64/day/116.png")
  = App.Text "🌡️"
  /\ App.getWeatherEmoji (Some "//x/03d.png") = App.Text "☁️".
Proof.
  split.
  - apply (proj1 (proj2 (proj2 X13_getWeatherEmoji_table_and_fallback))
             "//cdn.weatherapi.com/weather/64x64/day" "116" "png");
      reflexivity.
  - apply (proj2 (proj2 (proj2 X13_getWeatherEmoji_table_and_fallback))
             "//x" "03d" "☁️" "png"); [| reflexivity].
    simpl. auto 10.
Defined.

(** X14 at a failed fetch for "Atlantis" while London is shown. *)
Lemma X14_witness :
  App.loading
    (App.fetchWeather "Atlantis" App.Failed
       (App.mkState (Some (formatWeatherData 1000 london)) "Atlantis"
                    [] true false ""))
  = false.
Proof.
  apply (proj2 (X14_fetchWeather_shows_weather_or_an_error
                  "Atlantis" App.Failed
                  (App.mkState (Some (formatWeatherData 1000 london))
                               "Atlantis" [] true false ""))).
  discriminate.
Defined.

(** X15 at a blank input and at " Paris". *)
Lemma X15_witness :
  App.handleSearch App.Failed (App.mkState None "   " [] true false "")
  = App.mkState None "   " [] true false ""
  /\ App.showSuggestions
       (App.handleSearch App.Failed
          (App.mkState None " Paris" [] true false ""))
     = false.
Proof.
  split.
  - apply (proj1 (X15_handleSearch_ignores_a_blank_city
                    App.Failed (App.mkState None "   " [] true false ""))).
    reflexivity.
  - apply (proj2 (X15_handleSearch_ignores_a_blank_city
                    App.Failed (App.mkState None " Paris" [] true false ""))).
    reflexivity.
Defined.

End ExtraInstances.
